(** * Layered configuration loaders of [config.py]

    A shallow embedding of the configuration module: Python values, the
    deep merge of mappings the loaders are built on, named-tuple
    construction by keyword expansion, the file reads, SHA-1 content
    hashing, and the eight loaders themselves; followed by the properties
    of the loaders.

    Conventions.
    - A Python [str] is represented by its UTF-8 bytes, a Rocq [string];
      [encode("utf-8")] is then the identity.  Splitting on ['/'], joining
      with ['-'], replacing ['_'] and comparing for [sort()] act on ASCII
      separators, resp. give code-point order, so they commute with the
      encoding.
    - A Python [dict] with string keys is a [gmap string value].
    - Exceptions are values of [exn]; a computation that may raise returns
      a [result]. *)

From stdpp Require Import gmap strings list fin_maps.
From Stdlib Require Import ZArith Ascii String Permutation.

#[local] Set Warnings "-register-all".
#[local] Open Scope string_scope.

(** ** Python values *)

Module Py.

(** JSON documents, keyword arguments and record fields.  [VTuple] is a
    tuple, which is what a named tuple stored inside another record is. *)
Inductive value : Type :=
  | VNone
  | VBool (b : bool)
  | VInt (z : Z)
  | VFloat (mantissa exponent : Z)
  | VStr (s : string)
  | VList (l : list value)
  | VTuple (l : list value)
  | VDict (m : gmap string value).

#[global] Instance value_inhabited : Inhabited value := populate VNone.

Inductive exn : Type :=
  | OSError          (* FileNotFoundError, IsADirectoryError, NotADirectoryError *)
  | JSONDecodeError  (* also the UnicodeDecodeError of read_text *)
  | KeyError
  | AttributeError
  | TypeError.

Inductive result (A : Type) : Type :=
  | Ok (a : A)
  | Raise (e : exn).
Arguments Ok {A} a.
Arguments Raise {A} e.

Definition bind {A B} (c : result A) (k : A -> result B) : result B :=
  match c with
  | Ok a => k a
  | Raise e => Raise e
  end.

Definition raises {A} (c : result A) : Prop := exists e, c = Raise e.

(** [bool(v)] *)
Definition truthy (v : value) : bool :=
  match v with
  | VNone => false
  | VBool b => b
  | VInt z => negb (z =? 0)%Z
  | VFloat m _ => negb (m =? 0)%Z
  | VStr s => negb (String.eqb s "")
  | VList l | VTuple l => match l with [] => false | _ => true end
  | VDict m => negb (bool_decide (m = ∅))
  end.

(** [isinstance(v, Mapping)] *)
Definition is_mapping (v : value) : bool :=
  match v with VDict _ => true | _ => false end.

(** [hash(v)] succeeds: lists and dicts are unhashable, a tuple is hashable
    when its items are. *)
Fixpoint hashable (v : value) : bool :=
  match v with
  | VList _ | VDict _ => false
  | VTuple l => forallb hashable l
  | _ => true
  end.

(** [d.get(key, dflt)] on a dict whose keys are strings. *)
Definition dict_get (d : gmap string value) (key : value) (dflt : value)
  : result value :=
  match key with
  | VStr k => Ok (default dflt (d !! k))
  | _ => if hashable key then Ok dflt else Raise TypeError
  end.

(** [v.get(key, dflt)]: only dicts have the method. *)
Definition get (v : value) (key : value) (dflt : value) : result value :=
  match v with
  | VDict d => dict_get d key dflt
  | _ => Raise AttributeError
  end.

(** [v[k]] for a string key [k]: defined on dicts, [KeyError] when the key
    is absent, [TypeError] on every other value. *)
Definition getitem (v : value) (k : string) : result value :=
  match v with
  | VDict d => match d !! k with Some x => Ok x | None => Raise KeyError end
  | _ => Raise TypeError
  end.

(** [a or b] *)
Definition por (a b : value) : value := if truthy a then a else b.

(** *** Strings *)

(** [s.split(c)] for a one-character separator. *)
Fixpoint split (c : ascii) (s : string) : list string :=
  match s with
  | EmptyString => [EmptyString]
  | String a s' =>
      if Ascii.eqb a c then EmptyString :: split c s'
      else match split c s' with
           | h :: t => String a h :: t
           | [] => [String a EmptyString]
           end
  end.

(** [l[-1]] on a list of strings that is never empty here. *)
Definition last_item (l : list string) : string := List.last l EmptyString.

(** [s.replace(a, b)] for one-character [a] and [b]. *)
Fixpoint replace (a b : ascii) (s : string) : string :=
  match s with
  | EmptyString => EmptyString
  | String c s' => String (if Ascii.eqb c a then b else c) (replace a b s')
  end.

(** [sep.join(l)] *)
Definition join (sep : string) (l : list string) : string := String.concat sep l.

(** [c in s] *)
Fixpoint contains (c : ascii) (s : string) : bool :=
  match s with
  | EmptyString => false
  | String a s' => Ascii.eqb a c || contains c s'
  end.

(** [l.sort()] on strings: the sorted rearrangement, by insertion. *)
Fixpoint insert_sorted (x : string) (l : list string) : list string :=
  match l with
  | [] => [x]
  | y :: l' => if String.leb x y then x :: l else y :: insert_sorted x l'
  end.

Definition sort (l : list string) : list string := foldr insert_sorted [] l.

End Py.
Export Py.

Declare Scope py_scope.
Notation "x <- c ;; k" := (bind c (fun x => k))
  (at level 100, c at next level, right associativity) : py_scope.
#[local] Open Scope py_scope.

(** ** SHA-1 ([hashlib.sha1])

    FIPS 180-4 on a byte string, with 32-bit words as [Z] reduced modulo
    [2^32]. *)

Module Sha1.
#[local] Open Scope list_scope.
#[local] Open Scope Z_scope.

Definition w32 (x : Z) : Z := x mod 2 ^ 32.

Definition rotl (n x : Z) : Z :=
  w32 (Z.lor (Z.shiftl x n) (Z.shiftr x (32 - n))).

Definition byte_of (a : ascii) : Z := Z.of_N (N_of_ascii a).

Definition bytes_of (s : string) : list Z := List.map byte_of (list_ascii_of_string s).

(** The message followed by [0x80], zero bytes up to 56 modulo 64, and the
    bit length as a 64-bit big-endian integer. *)
Definition be_bytes (n : nat) (x : Z) : list Z :=
  List.map (fun i => (x / 2 ^ (8 * Z.of_nat i)) mod 256) (List.rev (List.seq 0 n)).

Definition pad (msg : list Z) : list Z :=
  let len := Z.of_nat (List.length msg) in
  let zeros := Z.to_nat ((55 - len) mod 64) in
  msg ++ 128 :: List.repeat 0 zeros ++ be_bytes 8 (8 * len).

Fixpoint words (bs : list Z) : list Z :=
  match bs with
  | a :: b :: c :: d :: r =>
      (a * 2 ^ 24 + b * 2 ^ 16 + c * 2 ^ 8 + d) :: words r
  | _ => []
  end.

(** The message schedule, newest word first while it is being extended. *)
Fixpoint extend (n : nat) (w : list Z) : list Z :=
  match n with
  | O => w
  | S n' =>
      let x i := List.nth i w 0 in
      extend n' (rotl 1 (Z.lxor (Z.lxor (x 2%nat) (x 7%nat))
                                (Z.lxor (x 13%nat) (x 15%nat))) :: w)
  end.

Definition schedule (block : list Z) : list Z :=
  List.rev (extend 64 (List.rev block)).

Definition hstate : Type := Z * Z * Z * Z * Z.

Definition round (st : hstate) (tw : nat * Z) : hstate :=
  let '(a, b, c, d, e) := st in
  let '(t, w) := tw in
  let '(f, k) :=
    if (t <? 20)%nat then
      (Z.lor (Z.land b c) (Z.land (Z.lxor b 0xFFFFFFFF) d), 0x5A827999)
    else if (t <? 40)%nat then
      (Z.lxor (Z.lxor b c) d, 0x6ED9EBA1)
    else if (t <? 60)%nat then
      (Z.lor (Z.lor (Z.land b c) (Z.land b d)) (Z.land c d), 0x8F1BBCDC)
    else
      (Z.lxor (Z.lxor b c) d, 0xCA62C1D6) in
  (w32 (rotl 5 a + f + e + k + w), a, rotl 30 b, c, d).

Definition compress (h : hstate) (block : list Z) : hstate :=
  let '(h0, h1, h2, h3, h4) := h in
  let '(a, b, c, d, e) :=
    List.fold_left round (List.combine (List.seq 0 80) (schedule block)) h in
  (w32 (h0 + a), w32 (h1 + b), w32 (h2 + c), w32 (h3 + d), w32 (h4 + e)).

Fixpoint blocks (n : nat) (ws : list Z) (h : hstate) : hstate :=
  match n with
  | O => h
  | S n' => blocks n' (List.skipn 16 ws) (compress h (List.firstn 16 ws))
  end.

Definition init : hstate :=
  (0x67452301, 0xEFCDAB89, 0x98BADCFE, 0x10325476, 0xC3D2E1F0).

Definition digest (msg : list Z) : hstate :=
  let ws := words (pad msg) in
  blocks (List.length ws / 16) ws init.

Definition hex_digit (x : Z) : ascii :=
  List.nth (Z.to_nat x) (list_ascii_of_string "0123456789abcdef") "0"%char.

Definition hex32 (x : Z) : list ascii :=
  List.map (fun i => hex_digit ((x / 2 ^ (4 * Z.of_nat i)) mod 16))
           (List.rev (List.seq 0 8)).

(** [hashlib.sha1(msg).hexdigest()] *)
Definition hexdigest (msg : string) : string :=
  let '(h0, h1, h2, h3, h4) := digest (bytes_of msg) in
  string_of_list_ascii (hex32 h0 ++ hex32 h1 ++ hex32 h2 ++ hex32 h3 ++ hex32 h4).

(** A hash object is determined by the bytes fed to it so far:
    [sha1()] starts empty and [update] appends. *)
Definition hasher : Type := string.
Definition new : hasher := EmptyString.
Definition update (h : hasher) (data : string) : hasher := (h ++ data)%string.

End Sha1.

(** ** Deep merge ([mergedeep.merge], default strategy [REPLACE])

    [_deepmerge(dst, src)] visits every key of [src]: a key already in
    [dst] whose two values are both mappings is merged recursively; any
    other key gets (a copy of) the value of [src].  The destination is
    updated in place and returned; the loaders always pass a fresh
    dictionary as destination, so the update is modelled by the returned
    map. *)

Module MergeDeep.

Definition deepmerge_with (rec : value -> value -> value)
    (dst src : gmap string value) : gmap string value :=
  map_fold (fun key v dst =>
              match dst !! key with
              | Some d => <[key := rec v d]> dst
              | None => <[key := v]> dst
              end) dst src.

(** The value left under a key that holds [d] in the destination and [s]
    in the source. *)
Fixpoint merge_value (s d : value) {struct s} : value :=
  match s, d with
  | VDict src, VDict dst => VDict (deepmerge_with merge_value dst src)
  | _, _ => s
  end.

Definition deepmerge (dst src : gmap string value) : gmap string value :=
  deepmerge_with merge_value dst src.

(** One source of [merge].  A source that is not a dict is iterated all
    the same: an empty list, tuple or string has nothing to visit, every
    other value ends in an exception, raised while indexing the source or,
    for a list of valid integer indices, by the keyword expansion that
    every caller applies to the merged dictionary (a [TypeError], or an
    [IndexError] for an integer out of range; the model raises [TypeError]
    for all of them). *)
Definition merge_source (dst : gmap string value) (src : value)
  : result (gmap string value) :=
  match src with
  | VDict s => Ok (deepmerge dst s)
  | VList [] | VTuple [] | VStr EmptyString => Ok dst
  | _ => Raise TypeError
  end.

(** [merge(destination, *sources)]: a left fold of [_deepmerge]. *)
Fixpoint merge (destination : gmap string value) (sources : list value)
  : result (gmap string value) :=
  match sources with
  | [] => Ok destination
  | src :: rest => d <- merge_source destination src ;; merge d rest
  end.

End MergeDeep.
Export MergeDeep.

(** ** The host: files, JSON parser, string conversion *)

Inductive node : Type :=
  | File (content : string)
  | Dir (names : list string).   (* in the order [os.listdir] returns them *)

(** [json_loads] is [json.loads] after the decoding done by [read_text]
    ([None]: the text is rejected); [py_str] is the conversion an f-string
    applies to an interpolated value, which leaves a string as it is. *)
Record host : Type := {
  files : string -> option node;
  json_loads : string -> option value;
  py_str : value -> string;
  py_str_str : forall s, py_str (VStr s) = s
}.

(** [Path(path).read_text()] *)
Definition read_text (h : host) (path : string) : result string :=
  match files h path with
  | Some (File content) => Ok content
  | _ => Raise OSError
  end.

(** [read_config(path)], the expression every loader evaluates on its file. *)
Definition read_config (h : host) (path : string) : result value :=
  text <- read_text h path ;;
  match json_loads h text with
  | Some doc => Ok doc
  | None => Raise JSONDecodeError
  end.

Definition ends_with_slash (s : string) : bool :=
  match List.last (list_ascii_of_string s) "/"%char with
  | "/"%char => true
  | _ => false
  end.

(** [os.path.join(a, b)] (POSIX) *)
Definition path_join (a b : string) : string :=
  match b with
  | String "/"%char _ => b
  | _ => if ends_with_slash a then a ++ b else a ++ "/" ++ b
  end.

(** ** Records *)

(** A named tuple built by keyword expansion, [T( **kw)]: the keywords have
    to be exactly the fields of [T].  The record is represented by the
    mapping from its fields to their values, which is also what
    [config_dict] ([_asdict]) returns. *)
Definition new_record (fields : list string) (kw : gmap string value)
  : result (gmap string value) :=
  if bool_decide (dom kw = (list_to_set fields : gset string))
  then Ok kw else Raise TypeError.

Definition config_dict (nt : gmap string value) : gmap string value := nt.

Record AppConfig : Type := mkAppConfig {
  branch : value;
  build_number : value;
  commit_sha : value;
  environment : value;
  feature_engineering_jar : value;
  fqn : value;
  model : value;
  pipeline : value;
  project : value;
  tenant : value;
  debug : value
}.

Definition AppConfig_fields : list string :=
  [ "branch"; "build_number"; "commit_sha"; "environment";
    "feature_engineering_jar"; "fqn"; "model"; "pipeline"; "project";
    "tenant"; "debug" ].

(** [AppConfig( **kw)] *)
Definition AppConfig_new (kw : gmap string value) : result AppConfig :=
  kw <- new_record AppConfig_fields kw ;;
  Ok {| branch := kw !!! "branch";
        build_number := kw !!! "build_number";
        commit_sha := kw !!! "commit_sha";
        environment := kw !!! "environment";
        feature_engineering_jar := kw !!! "feature_engineering_jar";
        fqn := kw !!! "fqn";
        model := kw !!! "model";
        pipeline := kw !!! "pipeline";
        project := kw !!! "project";
        tenant := kw !!! "tenant";
        debug := kw !!! "debug" |}.

(** The record as the tuple it is, for storing it in a field. *)
Definition AppConfig_value (a : AppConfig) : value :=
  VTuple [ branch a; build_number a; commit_sha a; environment a;
           feature_engineering_jar a; fqn a; model a; pipeline a; project a;
           tenant a; debug a ].

Definition TenantConfig_fields : list string :=
  [ "app_config"; "aws_account_id"; "aws_region"; "build_artifacts";
    "build_number"; "commit_sha"; "crawler_role_arn"; "domain_id";
    "emr_cluster_id"; "environment"; "environments"; "execution_role_arn";
    "fqn"; "lambda_role_arn"; "lambda_security_group_ids";
    "lambda_subnet_ids"; "mllib_image_uri"; "s3_bucket";
    "scheduler_role_arn"; "studio_lifecycle_scripts"; "studio_users";
    "tags"; "tenant_name" ].

Definition DeploymentConfig_fields : list string :=
  (TenantConfig_fields ++ [ "branch"; "branches"; "feature_engineering_jar" ])%list.

Definition ProjectConfig_fields : list string :=
  (TenantConfig_fields ++ [ "project_name" ])%list.

Definition ModelConfig_fields : list string :=
  (ProjectConfig_fields ++
   [ "base_s3_path"; "model_arn"; "model_base_dir";
     "model_binaries_artifact"; "model_binaries_dir";
     "model_binaries_location"; "model_binary"; "model_binary_sha";
     "model_code_artifact"; "model_code_location"; "model_code_sha";
     "model_description"; "model_entrypoint"; "model_group_arn";
     "model_image_uri"; "model_image_file"; "model_inference_config";
     "model_metadata"; "model_name"; "model_package_arn"; "model_sha";
     "model_source_dir"; "model_version" ])%list.

Definition PipelineConfig_fields : list string :=
  (ProjectConfig_fields ++
   [ "base_path"; "base_s3_path"; "feature_engineering_jar";
     "pipeline_module_location"; "pipeline_module_name"; "pipeline_name";
     "pipeline_name_prefix"; "pipeline_schedule"; "registered_model";
     "rule_name" ])%list.

Definition GlueConfig_fields : list string :=
  (ProjectConfig_fields ++
   [ "base_s3_path"; "crawler_name_prefix"; "datasets";
     "force_create_flag"; "table_name_prefix" ])%list.

Definition FeaturesConfig_fields : list string :=
  (ModelConfig_fields ++ [ "features" ])%list.

Definition ImageConfig_fields : list string :=
  (TenantConfig_fields ++
   [ "image_base_dir"; "image_description"; "image_name"; "image_file";
     "image_uri" ])%list.

(** ** The loaders *)

Definition fqn_keys : list string :=
  [ "tenant"; "project"; "model"; "pipeline"; "environment" ].

(** [d.get(k, dflt)] for a string [k]; [kwargs.get(k)] has [None] as default. *)
Definition dget (d : gmap string value) (k : string) (dflt : value) : value :=
  default dflt (d !! k).

Definition kwargs_get (kwargs : gmap string value) (k : string) : value :=
  dget kwargs k VNone.

(** [v.split('/')[-1]]; [split] is a method of [str]. *)
Definition split_last (v : value) : result string :=
  match v with
  | VStr s => Ok (last_item (split "/" s))
  | _ => Raise AttributeError
  end.

(** The items handed to [str.join] have to be strings. *)
Fixpoint str_items (items : list value) : result (list string) :=
  match items with
  | [] => Ok []
  | VStr s :: rest => l <- str_items rest ;; Ok (s :: l)
  | _ :: _ => Raise TypeError
  end.

Definition app_computed (kwargs : gmap string value) (env fqn : string)
  : gmap string value :=
  {[ "debug" := dget kwargs "debug" (VBool false);
     "model" := kwargs_get kwargs "model";
     "project" := kwargs_get kwargs "project";
     "pipeline" := kwargs_get kwargs "pipeline";
     "branch" := kwargs_get kwargs "branch";
     "feature_engineering_jar" := kwargs_get kwargs "feature_engineering_jar";
     "environment" := VStr env;
     "fqn" := VStr fqn ]}.

Definition read_app_config (kwargs : gmap string value) : result AppConfig :=
  raw <- getitem (VDict kwargs) "environment" ;;
  env <- split_last raw ;;
  parts <- str_items (List.filter truthy (List.map (kwargs_get kwargs) fqn_keys)) ;;
  merged <- merge kwargs [ VDict (app_computed kwargs env (join "-" parts)) ] ;;
  AppConfig_new merged.

Definition tenant_defaults : gmap string value :=
  {[ "emr_cluster_id" := VNone;
     "lambda_security_group_ids" := VNone;
     "lambda_subnet_ids" := VNone;
     "studio_lifecycle_scripts" := VNone;
     "studio_users" := VNone ]}.

Definition tenant_tags (app_config : AppConfig) : gmap string value :=
  {[ "Environment" := environment app_config;
     "BuildNumber" := build_number app_config;
     "CommitSha" := commit_sha app_config ]}.

Definition tenant_computed (app_config : AppConfig) : gmap string value :=
  {[ "app_config" := AppConfig_value app_config;
     "fqn" := fqn app_config;
     "tenant_name" := tenant app_config;
     "environment" := environment app_config;
     "build_number" := build_number app_config;
     "commit_sha" := commit_sha app_config;
     "build_artifacts" := VStr "./artifacts";
     "tags" := VDict (tenant_tags app_config) ]}.

Definition read_tenant_config (h : host) (app_config : AppConfig)
  : result (gmap string value) :=
  tenant_spec <- read_config h (py_str h (tenant app_config) ++ "/tenant.json") ;;
  environments <- get tenant_spec (VStr "environments") (VDict ∅) ;;
  environment_spec <- get environments (environment app_config) (VDict ∅) ;;
  merged <- merge tenant_defaults
              [ tenant_spec; VDict (tenant_computed app_config); environment_spec ] ;;
  new_record TenantConfig_fields merged.

Definition deployment_computed (h : host) (app_config : AppConfig)
    (tenant_config : gmap string value) : gmap string value :=
  let default_feature_engineering_jar :=
    "s3://" ++ py_str h (tenant_config !!! "s3_bucket")
    ++ "/artifacts/feature-engineering-assembly-"
    ++ py_str h (commit_sha app_config) ++ ".jar" in
  {[ "branch" := branch app_config;
     "feature_engineering_jar" :=
       por (feature_engineering_jar app_config)
           (VStr default_feature_engineering_jar) ]}.

Definition read_deployment_config (h : host) (app_config : AppConfig)
  : result (gmap string value) :=
  tenant_config <- read_tenant_config h app_config ;;
  deployment_spec <- read_config h (py_str h (tenant app_config) ++ "/deployment.json") ;;
  merged <- merge (config_dict tenant_config)
              [ VDict (deployment_computed h app_config tenant_config);
                deployment_spec ] ;;
  new_record DeploymentConfig_fields merged.

Definition read_project_config (h : host) (app_config : AppConfig)
  : result (gmap string value) :=
  tenant_config <- read_tenant_config h app_config ;;
  project_spec <- read_config h (py_str h (tenant app_config) ++ "/"
                                 ++ py_str h (project app_config) ++ "/project.json") ;;
  merged <- merge (config_dict tenant_config) [ project_spec ] ;;
  new_record ProjectConfig_fields merged.

(** [open(path, 'rb').read()] *)
Definition read_bytes (h : host) (path : string) : result string :=
  match files h path with
  | Some (File content) => Ok content
  | _ => Raise OSError
  end.

(** The loop of [model_code_hash] over the sorted names. *)
Definition hash_files (h : host) (model_src_dir : string)
    (model_files : list string) (sha1 : Sha1.hasher) : Sha1.hasher :=
  fold_left (fun sha1 fn =>
               let p := path_join model_src_dir fn in
               match files h p with
               | Some (File content) => Sha1.update sha1 content
               | _ => sha1
               end) model_files sha1.

Definition model_code_hash (h : host) (model_src_dir : string) : result string :=
  let sha1 := Sha1.new in
  match files h model_src_dir with
  | None => Ok (Sha1.hexdigest (Sha1.update sha1 ""))
  | Some (File _) => Raise OSError        (* [os.listdir] of a file *)
  | Some (Dir names) =>
      let model_files := sort names in
      Ok (Sha1.hexdigest (hash_files h model_src_dir model_files sha1))
  end.

Definition model_binary_hash (h : host) (model_binaries_dir model_file : string)
  : result string :=
  let sha1 := Sha1.new in
  content <- read_bytes h (model_binaries_dir ++ "/" ++ model_file) ;;
  Ok (Sha1.hexdigest (Sha1.update sha1 content)).

(** [f"{app_config.tenant}/{app_config.project}/{app_config.model}"] *)
Definition model_base_dir (h : host) (app_config : AppConfig) : string :=
  py_str h (tenant app_config) ++ "/" ++ py_str h (project app_config)
  ++ "/" ++ py_str h (model app_config).

(** [f"{tenant}-{project}-{name}-{environment}"] *)
Definition s3_key (h : host) (app_config : AppConfig) (name : value) : string :=
  py_str h (tenant app_config) ++ "-" ++ py_str h (project app_config)
  ++ "-" ++ py_str h name ++ "-" ++ py_str h (environment app_config).

Definition model_fingerprint (h : host) (model_binary_sha model_code_sha : string)
    (model_version : value) : string :=
  let model_version_string :=
    model_binary_sha ++ model_code_sha ++ py_str h model_version in
  Sha1.hexdigest model_version_string.

Definition model_computed (h : host) (app_config : AppConfig)
    (project_config model_spec : gmap string value)
    (model_binary_sha model_code_sha model_sha : string) : gmap string value :=
  let base_s3_path :=
    replace "_" "-" ("s3://" ++ py_str h (project_config !!! "s3_bucket") ++ "/"
                     ++ s3_key h app_config (model app_config)) in
  list_to_map
    [ ("model_arn", VNone);
      ("model_code_artifact", VNone);
      ("model_code_location", VNone);
      ("model_binaries_artifact", VNone);
      ("model_binaries_location", VNone);
      ("model_package_arn", VNone);
      ("model_group_arn", VNone);
      ("model_sha", VStr model_sha);
      ("model_entrypoint", dget model_spec "model_entrypoint" VNone);
      ("model_image_uri", dget model_spec "model_image_uri" VNone);
      ("model_image_file", dget model_spec "model_image_file" VNone);
      ("model_binary", dget model_spec "model_binary" VNone);
      ("model_binary_sha", VStr model_binary_sha);
      ("model_code_sha", VStr model_code_sha);
      ("model_base_dir", VStr (model_base_dir h app_config));
      ("model_source_dir", VStr (model_base_dir h app_config ++ "/"
            ++ py_str h (dget model_spec "model_source_dir" (VStr "model"))));
      ("model_binaries_dir", VStr (model_base_dir h app_config ++ "/"
            ++ py_str h (dget model_spec "model_binaries_dir" (VStr "model"))));
      ("base_s3_path", VStr base_s3_path) ].

(** The statement [if model_spec.get('model_binary'): ... else: ...] that
    sets [model_binary_sha]. *)
Definition binary_sha (h : host) (app_config : AppConfig)
    (model_spec : gmap string value) : result string :=
  if truthy (dget model_spec "model_binary" VNone) then
    model_file <- getitem (VDict model_spec) "model_binary" ;;
    model_binary_hash h
      (model_base_dir h app_config ++ "/"
       ++ py_str h (dget model_spec "model_binaries_dir" (VStr "model")))
      (py_str h model_file)
  else Ok (Sha1.hexdigest "").

Definition read_model_config (h : host) (app_config : AppConfig)
  : result (gmap string value) :=
  project_config <- read_project_config h app_config ;;
  model_spec <- read_config h (model_base_dir h app_config ++ "/model.json") ;;
  match model_spec with
  | VDict spec =>
      model_code_sha <-
        model_code_hash h
          (model_base_dir h app_config ++ "/"
           ++ py_str h (dget spec "model_source_dir" (VStr "model"))) ;;
      model_binary_sha <- binary_sha h app_config spec ;;
      model_version <- getitem model_spec "model_version" ;;
      let model_sha := model_fingerprint h model_binary_sha model_code_sha model_version in
      merged <- merge (config_dict project_config)
                  [ model_spec;
                    VDict (model_computed h app_config project_config spec
                             model_binary_sha model_code_sha model_sha) ] ;;
      new_record ModelConfig_fields merged
  | _ => Raise AttributeError             (* [model_spec.get] *)
  end.

Definition pipeline_computed (h : host) (app_config : AppConfig)
    (project_config : gmap string value) (pipeline_schedule : value)
  : gmap string value :=
  let base_path := model_base_dir h app_config in
  let module_name := py_str h (tenant app_config) ++ "." ++ py_str h (project app_config)
                     ++ "." ++ py_str h (model app_config)
                     ++ "." ++ py_str h (pipeline app_config) in
  let pipeline_name := py_str h (tenant app_config) ++ "-" ++ py_str h (project app_config)
                       ++ "-" ++ py_str h (model app_config)
                       ++ "-" ++ py_str h (pipeline app_config)
                       ++ "-" ++ py_str h (environment app_config) in
  let base_s3_key := s3_key h app_config (model app_config) in
  {[ "base_path" := VStr base_path;
     "base_s3_path" :=
       VStr (replace "_" "-" ("s3://" ++ py_str h (project_config !!! "s3_bucket")
                              ++ "/" ++ base_s3_key));
     "feature_engineering_jar" := feature_engineering_jar app_config;
     "pipeline_name_prefix" := VStr (replace "_" "-" pipeline_name);
     "pipeline_name" := VStr (replace "_" "-" pipeline_name);
     "rule_name" := VStr (replace "_" "-" pipeline_name);
     "pipeline_module_location" :=
       VStr ("./" ++ base_path ++ "/pipelines/" ++ py_str h (pipeline app_config) ++ ".py");
     "pipeline_module_name" := VStr module_name;
     "pipeline_schedule" := pipeline_schedule;
     "registered_model" := VNone ]}.

Definition read_pipeline_config (h : host) (app_config : AppConfig)
  : result (gmap string value) :=
  let base_path := model_base_dir h app_config in
  project_config <- read_project_config h app_config ;;
  pipeline_spec <- read_config h (base_path ++ "/pipeline.json") ;;
  schedules <- getitem pipeline_spec "pipeline_schedule" ;;
  pipeline_schedule <- get schedules (pipeline app_config) VNone ;;
  merged <- merge (config_dict project_config)
              [ pipeline_spec;
                VDict (pipeline_computed h app_config project_config pipeline_schedule) ] ;;
  new_record PipelineConfig_fields merged.

Definition dataset_computed (h : host) (app_config : AppConfig)
    (project_config : gmap string value) (model_name : value)
  : gmap string value :=
  let base_s3_key := s3_key h app_config model_name in
  {[ "base_s3_path" :=
       VStr ("s3://" ++ py_str h (project_config !!! "s3_bucket") ++ "/" ++ base_s3_key);
     "table_name_prefix" := VStr base_s3_key;
     "crawler_name_prefix" := VStr ("pi_risk_ml_" ++ base_s3_key);
     "force_create_flag" := VBool false ]}.

Definition read_dataset_config (h : host) (app_config : AppConfig)
  : result (gmap string value) :=
  let base_path := model_base_dir h app_config in
  project_config <- read_project_config h app_config ;;
  glue_spec <- read_config h (base_path ++ "/dataset.json") ;;
  model_spec <- read_config h (base_path ++ "/model.json") ;;
  model_name <- getitem model_spec "model_name" ;;
  merged <- merge (config_dict project_config)
              [ glue_spec;
                VDict (dataset_computed h app_config project_config model_name) ] ;;
  new_record GlueConfig_fields merged.

Definition read_features_config (h : host) (app_config : AppConfig)
  : result (gmap string value) :=
  let base_path := model_base_dir h app_config in
  model_config <- read_model_config h app_config ;;
  features_spec <- read_config h (base_path ++ "/features.json") ;;
  merged <- merge (config_dict model_config) [ features_spec ] ;;
  new_record FeaturesConfig_fields merged.

Definition read_image_config (h : host) (app_config : AppConfig)
  : result (gmap string value) :=
  let docker_config_path := "mllib/docker.json" in
  tenant_config <- read_tenant_config h app_config ;;
  docker_spec <- read_config h docker_config_path ;;
  merged <- merge (config_dict tenant_config) [ docker_spec ] ;;
  new_record ImageConfig_fields merged.

(** ** A concrete host

    One tenant [acme] with a project [risk], a model [churn_v1] and a
    pipeline [train]; used to run the loaders on concrete input. *)

Module Acme.

(** JSON texts are written with ['] standing for the double quote. *)
Definition json_text (s : string) : string := replace "'" "034" s.

Definition tenant_json : string := json_text
  "{'aws_account_id': '1234', 'aws_region': 'eu-west-1', 'crawler_role_arn': 'arn:crawler', 'domain_id': 'd-1', 'environments': {'prod': {'s3_bucket': 'prod-bucket'}, 'dev': {'tags': 'none'}, 'qa': {'build_artifacts': '/srv/out'}}, 'execution_role_arn': 'arn:exec', 'lambda_role_arn': 'arn:lambda', 'mllib_image_uri': 'repo/mllib:1', 's3_bucket': 'default', 'scheduler_role_arn': 'arn:sched'}".

Definition prod_entry : gmap string value :=
  {[ "s3_bucket" := VStr "prod-bucket" ]}.

Definition tenant_environments : gmap string value :=
  {[ "prod" := VDict prod_entry;
     "dev" := VDict {[ "tags" := VStr "none" ]};
     "qa" := VDict {[ "build_artifacts" := VStr "/srv/out" ]} ]}.

Definition tenant_spec : gmap string value :=
  {[ "aws_account_id" := VStr "1234";
     "aws_region" := VStr "eu-west-1";
     "crawler_role_arn" := VStr "arn:crawler";
     "domain_id" := VStr "d-1";
     "environments" := VDict tenant_environments;
     "execution_role_arn" := VStr "arn:exec";
     "lambda_role_arn" := VStr "arn:lambda";
     "mllib_image_uri" := VStr "repo/mllib:1";
     "s3_bucket" := VStr "default";
     "scheduler_role_arn" := VStr "arn:sched" ]}.

Definition tenant_doc : value := VDict tenant_spec.

Definition deployment_json : string := json_text
  "{'branches': ['main', 'release'], 'branch': 'release'}".
Definition deployment_doc : value := VDict
  {[ "branches" := VList [ VStr "main"; VStr "release" ];
     "branch" := VStr "release" ]}.

Definition project_json : string := json_text "{'project_name': 'risk'}".
Definition project_doc : value := VDict {[ "project_name" := VStr "risk" ]}.

(** A project file with a key that is no field of any record. *)
Definition wide_project_json : string := json_text
  "{'project_name': 'wide', 'owner': 'ops'}".
Definition wide_project_spec : gmap string value :=
  {[ "project_name" := VStr "wide"; "owner" := VStr "ops" ]}.

Definition model_json : string := json_text
  "{'model_name': 'churn_v1', 'model_version': '1.0', 'model_description': 'churn', 'model_inference_config': {}, 'model_metadata': {}, 'model_binary': 'model.bin'}".
Definition model_doc : value := VDict
  {[ "model_name" := VStr "churn_v1";
     "model_version" := VStr "1.0";
     "model_description" := VStr "churn";
     "model_inference_config" := VDict ∅;
     "model_metadata" := VDict ∅;
     "model_binary" := VStr "model.bin" ]}.

Definition pipeline_json : string := json_text
  "{'pipeline_schedule': {'train': 'rate(1 day)'}}".
Definition pipeline_doc : value := VDict
  {[ "pipeline_schedule" := VDict {[ "train" := VStr "rate(1 day)" ]} ]}.

(** A pipeline file without [pipeline_schedule]. *)
Definition legacy_pipeline_json : string := "{}".

Definition dataset_json : string := json_text "{'datasets': ['events']}".
Definition dataset_doc : value := VDict {[ "datasets" := VList [ VStr "events" ] ]}.

Definition features_json : string := json_text "{'features': ['age']}".
Definition features_doc : value := VDict {[ "features" := VList [ VStr "age" ] ]}.

Definition docker_json : string := json_text
  "{'image_base_dir': 'mllib', 'image_description': 'base', 'image_name': 'mllib', 'image_file': 'Dockerfile', 'image_uri': 'repo/mllib:1'}".
Definition docker_doc : value := VDict
  {[ "image_base_dir" := VStr "mllib";
     "image_description" := VStr "base";
     "image_name" := VStr "mllib";
     "image_file" := VStr "Dockerfile";
     "image_uri" := VStr "repo/mllib:1" ]}.

(** What [json.loads] returns on the texts above; every other text is
    taken as malformed. *)
Definition documents : gmap string value :=
  {[ tenant_json := tenant_doc;
     deployment_json := deployment_doc;
     project_json := project_doc;
     wide_project_json := VDict wide_project_spec;
     legacy_pipeline_json := VDict ∅;
     model_json := model_doc;
     pipeline_json := pipeline_doc;
     dataset_json := dataset_doc;
     features_json := features_doc;
     docker_json := docker_doc ]}.

Definition tree : gmap string node :=
  list_to_map
    [ ("acme/tenant.json", File tenant_json);
      ("acme/deployment.json", File deployment_json);
      ("acme/risk/project.json", File project_json);
      ("acme/wide/project.json", File wide_project_json);
      ("acme/risk/legacy/pipeline.json", File legacy_pipeline_json);
      ("acme/risk/churn_v1/model.json", File model_json);
      ("acme/risk/churn_v1/pipeline.json", File pipeline_json);
      ("acme/risk/churn_v1/dataset.json", File dataset_json);
      ("acme/risk/churn_v1/features.json", File features_json);
      ("mllib/docker.json", File docker_json);
      ("acme/risk/churn_v1/model", Dir [ "train.py"; "model.bin"; "lib"; "infer.py" ]);
      ("acme/risk/churn_v1/model/train.py", File "fit()");
      ("acme/risk/churn_v1/model/infer.py", File "predict()");
      ("acme/risk/churn_v1/model/model.bin", File "weights");
      ("acme/risk/churn_v1/model/lib", Dir []) ].

(** [str] on the values the example interpolates: strings, [None] and
    booleans. *)
Definition str (v : value) : string :=
  match v with
  | VStr s => s
  | VNone => "None"
  | VBool true => "True"
  | VBool false => "False"
  | _ => ""
  end.

Definition host : host :=
  {| files := fun path => tree !! path;
     json_loads := fun text => documents !! text;
     py_str := str;
     py_str_str := fun s => eq_refl |}.

Definition kwargs (env : string) : gmap string value :=
  {[ "tenant" := VStr "acme";
     "project" := VStr "risk";
     "model" := VStr "churn_v1";
     "pipeline" := VStr "train";
     "environment" := VStr env;
     "branch" := VStr "main";
     "build_number" := VStr "42";
     "commit_sha" := VStr "abc123" ]}.

(** The record [read_app_config] builds from such keyword arguments when
    the environment has no ['/']. *)
Definition app_of (project model env : string) : AppConfig :=
  {| branch := VStr "main";
     build_number := VStr "42";
     commit_sha := VStr "abc123";
     environment := VStr env;
     feature_engineering_jar := VNone;
     fqn := VStr ("acme-" ++ project ++ "-" ++ model ++ "-train-" ++ env);
     model := VStr model;
     pipeline := VStr "train";
     project := VStr project;
     tenant := VStr "acme";
     debug := VBool false |}.

Definition app (env : string) : AppConfig := app_of "risk" "churn_v1" env.

End Acme.

(** Whether a computation succeeds, and its value when it does. *)
Definition is_ok {A} (c : result A) : bool :=
  match c with Ok _ => true | Raise _ => false end.

Definition the {A} (dflt : A) (c : result A) : A :=
  match c with Ok a => a | Raise _ => dflt end.

(** ** The loaders, by name *)

Inductive loader : Type :=
  | Tenant | Deployment | Project | Model | Pipeline | Dataset | Features | Image.

Definition run (l : loader) (h : host) (app_config : AppConfig)
  : result (gmap string value) :=
  match l with
  | Tenant => read_tenant_config h app_config
  | Deployment => read_deployment_config h app_config
  | Project => read_project_config h app_config
  | Model => read_model_config h app_config
  | Pipeline => read_pipeline_config h app_config
  | Dataset => read_dataset_config h app_config
  | Features => read_features_config h app_config
  | Image => read_image_config h app_config
  end.

Definition record_fields (l : loader) : list string :=
  match l with
  | Tenant => TenantConfig_fields
  | Deployment => DeploymentConfig_fields
  | Project => ProjectConfig_fields
  | Model => ModelConfig_fields
  | Pipeline => PipelineConfig_fields
  | Dataset => GlueConfig_fields
  | Features => FeaturesConfig_fields
  | Image => ImageConfig_fields
  end.

Definition tenant_path (h : host) (a : AppConfig) : string :=
  py_str h (tenant a) ++ "/tenant.json".
Definition project_path (h : host) (a : AppConfig) : string :=
  py_str h (tenant a) ++ "/" ++ py_str h (project a) ++ "/project.json".

(** The JSON files whose documents a loader merges into its record, its
    parents' included. *)
Definition merged_files (l : loader) (h : host) (a : AppConfig) : list string :=
  match l with
  | Tenant => [ tenant_path h a ]
  | Deployment => [ tenant_path h a; py_str h (tenant a) ++ "/deployment.json" ]
  | Project => [ tenant_path h a; project_path h a ]
  | Model => [ tenant_path h a; project_path h a; model_base_dir h a ++ "/model.json" ]
  | Pipeline => [ tenant_path h a; project_path h a; model_base_dir h a ++ "/pipeline.json" ]
  | Dataset => [ tenant_path h a; project_path h a; model_base_dir h a ++ "/dataset.json" ]
  | Features => [ tenant_path h a; project_path h a; model_base_dir h a ++ "/model.json";
                  model_base_dir h a ++ "/features.json" ]
  | Image => [ tenant_path h a; "mllib/docker.json" ]
  end.

(** The JSON files a loader reads: the dataset loader also reads
    [model.json], for the model's name only. *)
Definition json_files (l : loader) (h : host) (a : AppConfig) : list string :=
  match l with
  | Dataset => List.app (merged_files Dataset h a) [ model_base_dir h a ++ "/model.json" ]
  | _ => merged_files l h a
  end.

(** The file at [path] is absent, or present and not valid JSON. *)
Definition absent_or_malformed (h : host) (path : string) : Prop :=
  files h path = None \/
  exists text, files h path = Some (File text) /\ json_loads h text = None.

(** ** Specification-side definitions *)

(** The values of [keys] in [kwargs] that are non-empty strings, in the
    order of [keys]. *)
Definition nonempty_values (kwargs : gmap string value) (keys : list string)
  : list string :=
  omap (fun k => match kwargs !! k with
                 | Some (VStr (String a s)) => Some (String a s)
                 | _ => None
                 end) keys.

(** The content of a regular file, [None] for a directory or a missing path. *)
Definition file_content (h : host) (path : string) : option string :=
  match files h path with
  | Some (File content) => Some content
  | _ => None
  end.

(** The contents of the regular files among the entries [names] of [dir],
    in the order of [names]; entries that are directories are left out. *)
Definition regular_files (h : host) (dir : string) (names : list string)
  : list string :=
  omap (fun fn => file_content h (path_join dir fn)) names.

(** The byte strings of a list, one after the other. *)
Definition concat_bytes (l : list string) : string := foldr String.append "" l.

Definition lower_hex (a : ascii) : bool :=
  contains a "0123456789abcdef".

Fixpoint string_forall (p : ascii -> bool) (s : string) : bool :=
  match s with
  | EmptyString => true
  | String a s' => p a && string_forall p s'
  end.

Fixpoint sorted (l : list string) : bool :=
  match l with
  | [] => true
  | x :: l' => match l' with [] => true | y :: _ => String.leb x y end && sorted l'
  end.

(** What a source contributes when [merge] accepts it. *)
Definition source_items (src : value) : option (gmap string value) :=
  match src with
  | VDict s => Some s
  | VList [] | VTuple [] | VStr EmptyString => Some ∅
  | _ => None
  end.

(** ** Further definitions *)

(** [config_attribute(nt, **kwargs)], that is [nt._replace( **kwargs)]:
    every field named in [kwargs] takes the value given, as it is (nothing
    is merged), the other fields keep theirs; a keyword that is no field
    of [nt] raises [ValueError], rendered as [None]. *)
Definition config_attribute (nt kwargs : gmap string value)
  : option (gmap string value) :=
  if bool_decide (dom kwargs ⊆ dom nt) then Some (kwargs ∪ nt) else None.

(** [config_dict] on an [AppConfig]. *)
Definition AppConfig_dict (a : AppConfig) : gmap string value :=
  list_to_map
    [ ("branch", branch a);
      ("build_number", build_number a);
      ("commit_sha", commit_sha a);
      ("environment", environment a);
      ("feature_engineering_jar", feature_engineering_jar a);
      ("fqn", fqn a);
      ("model", model a);
      ("pipeline", pipeline a);
      ("project", project a);
      ("tenant", tenant a);
      ("debug", debug a) ].

(** The loader whose record a loader starts its merge from. *)
Definition parent (l : loader) : option loader :=
  match l with
  | Tenant => None
  | Deployment | Project | Image => Some Tenant
  | Model | Pipeline | Dataset => Some Project
  | Features => Some Model
  end.

(** The JSON file a loader merges on top of its parent's record. *)
Definition own_document (l : loader) (h : host) (a : AppConfig) : string :=
  List.last (merged_files l h a) "".

(** The fields of a loader's record that are neither fields of the parent
    record nor computed by the loader. *)
Definition document_fields (l : loader) : list string :=
  match l with
  | Tenant => [ "aws_account_id"; "aws_region"; "crawler_role_arn"; "domain_id";
                "environments"; "execution_role_arn"; "lambda_role_arn";
                "mllib_image_uri"; "s3_bucket"; "scheduler_role_arn" ]
  | Deployment => [ "branches" ]
  | Project => [ "project_name" ]
  | Model => [ "model_description"; "model_inference_config"; "model_metadata";
               "model_name"; "model_version" ]
  | Pipeline => []
  | Dataset => [ "datasets" ]
  | Features => [ "features" ]
  | Image => [ "image_base_dir"; "image_description"; "image_name"; "image_file";
               "image_uri" ]
  end.

(** The nesting depth of mappings in a value, to reason by induction on
    nested documents. *)
Fixpoint depth (v : value) : nat :=
  match v with
  | VDict m => S (map_fold (fun _ x acc => Nat.max (depth x) acc) 0 m)
  | _ => 0
  end.

(** A host with one path or one JSON text changed. *)
Definition with_file (h : host) (path : string) (n : option node) : host :=
  {| files := fun p => if String.eqb p path then n else files h p;
     json_loads := json_loads h;
     py_str := py_str h;
     py_str_str := py_str_str h |}.

Definition with_document (h : host) (text : string) (doc : option value) : host :=
  {| files := files h;
     json_loads := fun t => if String.eqb t text then doc else json_loads h t;
     py_str := py_str h;
     py_str_str := py_str_str h |}.

(** * Properties *)

(** ** Results *)

Lemma bind_Ok {A B} (c : result A) (k : A -> result B) (b : B) :
  bind c k = Ok b -> exists a, c = Ok a /\ k a = Ok b.
Proof. destruct c as [a|e]; simpl; [eauto | discriminate]. Qed.

Lemma Ok_inj {A} (a b : A) : Ok a = Ok b -> a = b.
Proof. congruence. Qed.

Lemma the_Ok {A} (dflt : A) (c : result A) : is_ok c = true -> c = Ok (the dflt c).
Proof. by destruct c. Qed.

Lemma raises_Raise {A} (e : exn) : raises (@Raise A e).
Proof. by exists e. Qed.

Lemma raises_bind_l {A B} (c : result A) (k : A -> result B) :
  raises c -> raises (bind c k).
Proof. intros [e ->]. by exists e. Qed.

Lemma raises_bind_r {A B} (c : result A) (k : A -> result B) :
  (forall a, c = Ok a -> raises (k a)) -> raises (bind c k).
Proof. destruct c as [a|e]; simpl; [auto | intros _; by exists e]. Qed.

Lemma raises_or_Ok {A} (c : result A) : raises c \/ exists a, c = Ok a.
Proof. destruct c as [a|e]; [right; eauto | left; by exists e]. Qed.

(** Decompose a successful chain of binds. *)
Ltac inv_bind H :=
  repeat match type of H with
         | bind _ _ = Ok _ =>
             let a := fresh "a" in
             let Ha := fresh "Ha" in
             apply bind_Ok in H as (a & Ha & H)
         end.

(** ** Deep merge *)

Lemma lookup_deepmerge (dst src : gmap string value) (k : string) :
  deepmerge dst src !! k =
  match src !! k with
  | Some v => Some (match dst !! k with Some d => merge_value v d | None => v end)
  | None => dst !! k
  end.
Proof.
  unfold deepmerge, deepmerge_with. revert k.
  apply (map_fold_weak_ind (fun (r m : gmap string value) => forall k,
    r !! k = match m !! k with
             | Some v => Some (match dst !! k with Some d => merge_value v d | None => v end)
             | None => dst !! k
             end)).
  - intros k. by rewrite lookup_empty.
  - intros i x m r Hi IH k.
    pose proof (IH i) as IHi. rewrite Hi in IHi.
    destruct (decide (i = k)) as [->|Hne].
    + rewrite lookup_insert_eq. rewrite IHi.
      destruct (dst !! k); by rewrite lookup_insert_eq.
    + rewrite (lookup_insert_ne m) by done. rewrite <- IH.
      destruct (r !! i); by rewrite lookup_insert_ne.
Qed.

Lemma merge_value_atom (s d : value) : is_mapping s = false -> merge_value s d = s.
Proof. by destruct s. Qed.

Lemma merge_value_over_atom (s d : value) : is_mapping d = false -> merge_value s d = s.
Proof. destruct s, d; simpl; congruence. Qed.

(** The later source wins: a value that is not a mapping replaces what the
    destination holds. *)
Lemma deepmerge_wins (dst src : gmap string value) (k : string) (v : value) :
  src !! k = Some v -> is_mapping v = false -> deepmerge dst src !! k = Some v.
Proof.
  intros Hk Hv. rewrite lookup_deepmerge, Hk.
  destruct (dst !! k); [by rewrite merge_value_atom | done].
Qed.

Lemma deepmerge_keeps (dst src : gmap string value) (k : string) :
  src !! k = None -> deepmerge dst src !! k = dst !! k.
Proof. intros Hk. by rewrite lookup_deepmerge, Hk. Qed.

Lemma deepmerge_empty (dst : gmap string value) : deepmerge dst ∅ = dst.
Proof. unfold deepmerge, deepmerge_with. apply map_fold_empty. Qed.

Lemma dom_deepmerge (dst src : gmap string value) :
  dom (deepmerge dst src) = dom dst ∪ dom src.
Proof.
  apply set_eq. intros k.
  rewrite elem_of_union, !elem_of_dom, lookup_deepmerge.
  destruct (src !! k), (dst !! k); split; intros; eauto;
    destruct_or?; by try match goal with H : is_Some None |- _ => destruct H end.
Qed.

Lemma merge_source_Ok (dst : gmap string value) (src : value) (d : gmap string value) :
  merge_source dst src = Ok d ->
  exists s, source_items src = Some s /\ d = deepmerge dst s.
Proof.
  destruct src as [| | | |[|]|[|]|[|]|s]; simpl; intros H; try discriminate;
    injection H as <-; eexists; split; try reflexivity; by rewrite ?deepmerge_empty.
Qed.

Lemma source_items_dict (src : value) (s : gmap string value) (k : string) (v : value) :
  source_items src = Some s -> s !! k = Some v -> src = VDict s.
Proof.
  destruct src as [| | | |[|]|[|]|[|]|s']; simpl; intros H Hk; try discriminate;
    injection H as <-; by try rewrite lookup_empty in Hk.
Qed.

(** ** Records *)

Lemma new_record_Ok (fields : list string) (kw r : gmap string value) :
  new_record fields kw = Ok r -> r = kw /\ dom kw = list_to_set fields.
Proof.
  unfold new_record. case_bool_decide; [|discriminate].
  intros Heq; injection Heq as <-. done.
Qed.

Lemma new_record_raises (fields : list string) (kw : gmap string value) :
  dom kw <> list_to_set fields -> raises (new_record fields kw).
Proof.
  intros H. unfold new_record. case_bool_decide; [done | apply raises_Raise].
Qed.

(** ** Strings *)

Lemma contains_replace (a b : ascii) (s : string) :
  a <> b -> contains a (replace a b s) = false.
Proof.
  intros Hab. induction s as [|c s IH]; simpl; [done|].
  rewrite IH, orb_false_r.
  destruct (Ascii.eqb c a) eqn:E.
  - apply Ascii.eqb_neq. congruence.
  - done.
Qed.

Lemma string_app_cons (a : ascii) (s t : string) : String a s ++ t = String a (s ++ t).
Proof. reflexivity. Qed.

Lemma string_app_nil_r (s : string) : s ++ "" = s.
Proof. induction s as [|a s IH]; [done | by rewrite string_app_cons, IH]. Qed.

Lemma string_app_assoc (s t u : string) : (s ++ t) ++ u = s ++ (t ++ u).
Proof. induction s as [|a s IH]; [done | by rewrite !string_app_cons, IH]. Qed.

Lemma split_without (c : ascii) (s : string) :
  contains c s = false -> split c s = [s].
Proof.
  induction s as [|a s IH]; simpl; [done|].
  intros [Ha Hs]%orb_false_elim. rewrite Ha, (IH Hs). done.
Qed.

Lemma last_segment_without (s : string) :
  contains "/" s = false -> last_item (split "/" s) = s.
Proof. intros H. by rewrite split_without. Qed.

(** *** The order of [sort] *)

Lemma ascii_compare_lt_trans (a b c : ascii) :
  Ascii.compare a b = Lt -> Ascii.compare b c = Lt -> Ascii.compare a c = Lt.
Proof. unfold Ascii.compare. rewrite !N.compare_lt_iff. lia. Qed.

Lemma string_compare_le_trans (a b c : string) :
  String.compare a b <> Gt -> String.compare b c <> Gt -> String.compare a c <> Gt.
Proof.
  revert b c. induction a as [|x a IH]; intros [|y b] [|z c]; simpl; try done.
  destruct (Ascii.compare x y) eqn:Exy; [| |done].
  - apply Ascii.compare_eq_iff in Exy as ->.
    destruct (Ascii.compare y z); [apply IH | done | done].
  - destruct (Ascii.compare y z) eqn:Eyz; [| |done].
    + apply Ascii.compare_eq_iff in Eyz as <-. by rewrite Exy.
    + by rewrite (ascii_compare_lt_trans _ _ _ Exy Eyz).
Qed.

Lemma string_leb_le (a b : string) : String.leb a b = true <-> String.compare a b <> Gt.
Proof. unfold String.leb. by destruct (String.compare a b). Qed.

Lemma string_leb_trans (a b c : string) :
  String.leb a b = true -> String.leb b c = true -> String.leb a c = true.
Proof. rewrite !string_leb_le. apply string_compare_le_trans. Qed.

Lemma string_leb_false (a b : string) : String.leb a b = false -> String.leb b a = true.
Proof. intros H. destruct (String.leb_total a b); congruence. Qed.

Lemma insert_sorted_comm (x y : string) (l : list string) :
  insert_sorted x (insert_sorted y l) = insert_sorted y (insert_sorted x l).
Proof.
  induction l as [|z l IH]; simpl.
  - destruct (String.leb x y) eqn:Exy, (String.leb y x) eqn:Eyx; simpl;
      rewrite ?Exy, ?Eyx; try done.
    + by rewrite (String.leb_antisym _ _ Exy Eyx).
    + apply string_leb_false in Exy. congruence.
  - destruct (String.leb y z) eqn:Eyz, (String.leb x z) eqn:Exz; simpl;
      rewrite ?Eyz, ?Exz; simpl.
    + destruct (String.leb x y) eqn:Exy, (String.leb y x) eqn:Eyx; simpl;
        rewrite ?Exz, ?Eyz; try done.
      * by rewrite (String.leb_antisym _ _ Exy Eyx).
      * apply string_leb_false in Exy. congruence.
    + destruct (String.leb x y) eqn:Exy; [|done].
      by rewrite (string_leb_trans _ _ _ Exy Eyz) in Exz.
    + destruct (String.leb y x) eqn:Eyx; [|done].
      by rewrite (string_leb_trans _ _ _ Eyx Exz) in Eyz.
    + by rewrite IH.
Qed.

Lemma sort_permutation_invariant (l l' : list string) :
  Permutation l l' -> sort l = sort l'.
Proof.
  unfold sort. induction 1 as [|x l l' _ IH|x y l|l l' l'' _ IH1 _ IH2]; simpl.
  - done.
  - by rewrite IH.
  - apply insert_sorted_comm.
  - congruence.
Qed.

Lemma insert_sorted_perm (x : string) (l : list string) :
  Permutation (insert_sorted x l) (x :: l).
Proof.
  induction l as [|y l IH]; simpl; [done|].
  destruct (String.leb x y); [done|]. rewrite IH. apply perm_swap.
Qed.

Lemma sort_perm (l : list string) : Permutation (sort l) l.
Proof.
  unfold sort. induction l as [|x l IH]; simpl; [done|].
  by rewrite insert_sorted_perm, IH.
Qed.

Lemma insert_sorted_sorted (x : string) (l : list string) :
  sorted l = true -> sorted (insert_sorted x l) = true.
Proof.
  induction l as [|y l IH]; [done|].
  intros Hl. cbn [insert_sorted].
  destruct (String.leb x y) eqn:Exy.
  - cbn [sorted]. cbn [sorted] in Hl. by rewrite Exy.
  - apply string_leb_false in Exy.
    cbn [sorted] in Hl. apply andb_true_iff in Hl as [Hy Hl].
    specialize (IH Hl). cbn [sorted]. rewrite IH, andb_true_r.
    destruct l as [|z l]; simpl; [done|].
    destruct (String.leb x z); done.
Qed.

Lemma sort_sorted (l : list string) : sorted (sort l) = true.
Proof.
  unfold sort. induction l as [|x l IH]; simpl; [done|].
  by apply insert_sorted_sorted.
Qed.

(** ** Digests *)

(** The definition of SHA-1 above on the test vectors of FIPS 180. *)
Example sha1_abc :
  Sha1.hexdigest "abc" = "a9993e364706816aba3e25717850c26c9cd0d89d".
Proof. vm_compute. reflexivity. Qed.

Example sha1_two_blocks :
  Sha1.hexdigest "abcdbcdecdefdefgefghfghighijhijkijkljklmklmnlmnomnopnopq"
  = "84983e441c3bd26ebaae4aa1f95129e5e54670f1".
Proof. vm_compute. reflexivity. Qed.

Lemma sha1_empty : Sha1.hexdigest "" = "da39a3ee5e6b4b0d3255bfef95601890afd80709".
Proof. vm_compute. reflexivity. Qed.

Lemma hex_digit_lower (x : Z) : lower_hex (Sha1.hex_digit x) = true.
Proof.
  unfold Sha1.hex_digit. generalize (Z.to_nat x) as n. intros n.
  do 16 (destruct n as [|n]; [reflexivity|]). by destruct n.
Qed.

Lemma hexdigest_lower_hex (msg : string) :
  string_forall lower_hex (Sha1.hexdigest msg) = true /\
  String.length (Sha1.hexdigest msg) = 40.
Proof.
  unfold Sha1.hexdigest. destruct (Sha1.digest _) as [[[[h0 h1] h2] h3] h4].
  unfold Sha1.hex32. cbn [List.seq List.rev List.map List.app string_of_list_ascii
                          string_forall String.length].
  rewrite !hex_digit_lower. done.
Qed.

Lemma regular_files_cons (h : host) (dir fn : string) (names : list string) :
  regular_files h dir (fn :: names) =
  match file_content h (path_join dir fn) with
  | Some content => content :: regular_files h dir names
  | None => regular_files h dir names
  end.
Proof. reflexivity. Qed.

Lemma hash_files_bytes (h : host) (dir : string) (names : list string) (sha1 : Sha1.hasher) :
  hash_files h dir names sha1 = sha1 ++ concat_bytes (regular_files h dir names).
Proof.
  revert sha1. induction names as [|fn names IH]; intros sha1.
  - apply eq_sym, string_app_nil_r.
  - rewrite regular_files_cons. unfold hash_files in *. cbn [fold_left].
    rewrite IH. unfold file_content.
    destruct (files h (path_join dir fn)) as [[content|]|]; try done.
    unfold Sha1.update, concat_bytes. cbn [foldr]. apply string_app_assoc.
Qed.

Lemma regular_files_ext (h h' : host) (dir : string) (names : list string) :
  (forall fn, In fn names ->
     file_content h (path_join dir fn) = file_content h' (path_join dir fn)) ->
  regular_files h dir names = regular_files h' dir names.
Proof.
  induction names as [|fn names IH]; intros H; [done|].
  rewrite !regular_files_cons, (H fn) by (by left).
  rewrite IH; [done|]. intros fn' Hin. apply H. by right.
Qed.

(** ** The loaders, inverted *)

Lemma merge_nil (d r : gmap string value) : merge d [] = Ok r -> r = d.
Proof. simpl. congruence. Qed.

Lemma merge_cons (d r : gmap string value) (src : value) (rest : list value) :
  merge d (src :: rest) = Ok r ->
  exists s, source_items src = Some s /\ merge (deepmerge d s) rest = Ok r.
Proof.
  simpl. intros H. inv_bind H.
  apply merge_source_Ok in Ha as (s & Hs & ->). eauto.
Qed.

Ltac inv_merge H :=
  repeat match type of H with
         | merge _ (_ :: _) = Ok _ =>
             let s := fresh "items" in
             let Hs := fresh "Hitems" in
             apply merge_cons in H as (s & Hs & H)
         | merge _ [] = Ok _ => apply merge_nil in H
         end.

Lemma get_Ok_dict (v key dflt x : value) :
  get v key dflt = Ok x -> exists d, v = VDict d.
Proof. destruct v; simpl; try discriminate. eauto. Qed.

Lemma getitem_Ok (v x : value) (k : string) :
  getitem v k = Ok x -> exists d, v = VDict d /\ d !! k = Some x.
Proof.
  destruct v as [| | | | | | |d]; simpl; try discriminate.
  destruct (d !! k) eqn:E; [|discriminate]. intros [= <-]. eauto.
Qed.

Section Inversion.
Context (h : host) (a : AppConfig).

(** A loader that returns [r] has read its documents and merged them, in
    the order of its [merge] call, into a mapping with the declared keys. *)
Lemma read_tenant_config_Ok (r : gmap string value) :
  read_tenant_config h a = Ok r ->
  exists spec environment_spec entry,
    read_config h (tenant_path h a) = Ok (VDict spec) /\
    get (dget spec "environments" (VDict ∅)) (environment a) (VDict ∅) = Ok environment_spec /\
    source_items environment_spec = Some entry /\
    r = deepmerge (deepmerge (deepmerge tenant_defaults spec) (tenant_computed a)) entry /\
    dom r = list_to_set TenantConfig_fields.
Proof.
  unfold read_tenant_config. intros H. inv_bind H.
  destruct (get_Ok_dict _ _ _ _ Ha0) as [spec ->]. simpl in Ha0. injection Ha0 as <-.
  inv_merge Ha2. simpl in Hitems, Hitems0. injection Hitems as <-. injection Hitems0 as <-.
  apply new_record_Ok in H as [-> Hdom]. subst.
  repeat esplit; eauto.
Qed.

Lemma read_project_config_Ok (r : gmap string value) :
  read_project_config h a = Ok r ->
  exists tenant_config project_spec items,
    read_tenant_config h a = Ok tenant_config /\
    read_config h (project_path h a) = Ok project_spec /\
    source_items project_spec = Some items /\
    r = deepmerge tenant_config items /\
    dom r = list_to_set ProjectConfig_fields.
Proof.
  unfold read_project_config. intros H. inv_bind H. inv_merge Ha1.
  apply new_record_Ok in H as [-> Hdom]. subst.
  repeat esplit; eauto.
Qed.

Lemma read_deployment_config_Ok (r : gmap string value) :
  read_deployment_config h a = Ok r ->
  exists tenant_config deployment_spec items,
    read_tenant_config h a = Ok tenant_config /\
    read_config h (py_str h (tenant a) ++ "/deployment.json") = Ok deployment_spec /\
    source_items deployment_spec = Some items /\
    r = deepmerge (deepmerge tenant_config (deployment_computed h a tenant_config)) items /\
    dom r = list_to_set DeploymentConfig_fields.
Proof.
  unfold read_deployment_config. intros H. inv_bind H. inv_merge Ha1.
  simpl in Hitems. injection Hitems as <-.
  apply new_record_Ok in H as [-> Hdom]. subst.
  repeat esplit; eauto.
Qed.

Lemma read_model_config_Ok (r : gmap string value) :
  read_model_config h a = Ok r ->
  exists project_config spec code bin version,
    read_project_config h a = Ok project_config /\
    read_config h (model_base_dir h a ++ "/model.json") = Ok (VDict spec) /\
    model_code_hash h (model_base_dir h a ++ "/"
                       ++ py_str h (dget spec "model_source_dir" (VStr "model"))) = Ok code /\
    binary_sha h a spec = Ok bin /\
    spec !! "model_version" = Some version /\
    r = deepmerge (deepmerge project_config spec)
          (model_computed h a project_config spec bin code
             (model_fingerprint h bin code version)) /\
    dom r = list_to_set ModelConfig_fields.
Proof.
  unfold read_model_config. intros H. inv_bind H.
  destruct a1 as [| | | | | | |spec]; try discriminate.
  inv_bind H. apply getitem_Ok in Ha3 as (d & [= <-] & Hv).
  inv_merge Ha4. simpl in Hitems, Hitems0. injection Hitems as <-. injection Hitems0 as <-.
  apply new_record_Ok in H as [-> Hdom]. subst.
  repeat esplit; eauto.
Qed.

Lemma read_pipeline_config_Ok (r : gmap string value) :
  read_pipeline_config h a = Ok r ->
  exists project_config spec schedules pipeline_schedule,
    read_project_config h a = Ok project_config /\
    read_config h (model_base_dir h a ++ "/pipeline.json") = Ok (VDict spec) /\
    spec !! "pipeline_schedule" = Some schedules /\
    get schedules (pipeline a) VNone = Ok pipeline_schedule /\
    r = deepmerge (deepmerge project_config spec)
          (pipeline_computed h a project_config pipeline_schedule) /\
    dom r = list_to_set PipelineConfig_fields.
Proof.
  unfold read_pipeline_config. intros H. cbv zeta in H. inv_bind H.
  apply getitem_Ok in Ha1 as (spec & -> & Hs).
  inv_merge Ha3. simpl in Hitems, Hitems0. injection Hitems as <-. injection Hitems0 as <-.
  apply new_record_Ok in H as [-> Hdom]. subst.
  repeat esplit; eauto.
Qed.

Lemma read_dataset_config_Ok (r : gmap string value) :
  read_dataset_config h a = Ok r ->
  exists project_config glue_spec items model_spec model_name,
    read_project_config h a = Ok project_config /\
    read_config h (model_base_dir h a ++ "/dataset.json") = Ok glue_spec /\
    source_items glue_spec = Some items /\
    read_config h (model_base_dir h a ++ "/model.json") = Ok (VDict model_spec) /\
    model_spec !! "model_name" = Some model_name /\
    r = deepmerge (deepmerge project_config items)
          (dataset_computed h a project_config model_name) /\
    dom r = list_to_set GlueConfig_fields.
Proof.
  unfold read_dataset_config. intros H. cbv zeta in H. inv_bind H.
  apply getitem_Ok in Ha2 as (spec & -> & Hs).
  inv_merge Ha3. simpl in Hitems0. injection Hitems0 as <-.
  apply new_record_Ok in H as [-> Hdom]. subst.
  repeat esplit; eauto.
Qed.

Lemma read_features_config_Ok (r : gmap string value) :
  read_features_config h a = Ok r ->
  exists model_config features_spec items,
    read_model_config h a = Ok model_config /\
    read_config h (model_base_dir h a ++ "/features.json") = Ok features_spec /\
    source_items features_spec = Some items /\
    r = deepmerge model_config items /\
    dom r = list_to_set FeaturesConfig_fields.
Proof.
  unfold read_features_config. intros H. cbv zeta in H. inv_bind H. inv_merge Ha1.
  apply new_record_Ok in H as [-> Hdom]. subst.
  repeat esplit; eauto.
Qed.

Lemma read_image_config_Ok (r : gmap string value) :
  read_image_config h a = Ok r ->
  exists tenant_config docker_spec items,
    read_tenant_config h a = Ok tenant_config /\
    read_config h "mllib/docker.json" = Ok docker_spec /\
    source_items docker_spec = Some items /\
    r = deepmerge tenant_config items /\
    dom r = list_to_set ImageConfig_fields.
Proof.
  unfold read_image_config. intros H. cbv zeta in H. inv_bind H. inv_merge Ha1.
  apply new_record_Ok in H as [-> Hdom]. subst.
  repeat esplit; eauto.
Qed.

End Inversion.

(** ** Content hashing *)

(** C5.  The model source hash.  When the source directory does not exist
    the hash is the SHA-1 of the empty input,
    [da39a3ee5e6b4b0d3255bfef95601890afd80709].  When it is a directory with
    entries [names], the hash is the digest of the contents of the regular
    files among the entries themselves (a subdirectory contributes nothing,
    and nothing below it is read), concatenated in sorted name order; the
    result is the same for every order in which the entries are enumerated;
    and the output is 40 lowercase hexadecimal digits. *)
Theorem model_code_hash_spec (h : host) (dir : string) :
  (files h dir = None ->
     model_code_hash h dir = Ok "da39a3ee5e6b4b0d3255bfef95601890afd80709") /\
  (forall names, files h dir = Some (Dir names) ->
     model_code_hash h dir
       = Ok (Sha1.hexdigest (concat_bytes (regular_files h dir (sort names)))) /\
     sorted (sort names) = true /\ Permutation (sort names) names) /\
  (forall h' names names',
     files h dir = Some (Dir names) -> files h' dir = Some (Dir names') ->
     Permutation names names' ->
     (forall fn, In fn names ->
        file_content h (path_join dir fn) = file_content h' (path_join dir fn)) ->
     model_code_hash h dir = model_code_hash h' dir) /\
  (forall d, model_code_hash h dir = Ok d ->
     String.length d = 40 /\ string_forall lower_hex d = true).
Proof.
  unfold model_code_hash. split; [|split; [|split]].
  - intros ->. exact (f_equal Ok sha1_empty).
  - intros names ->. rewrite hash_files_bytes.
    split; [reflexivity|]. split; [apply sort_sorted | apply sort_perm].
  - intros h' names names' -> -> Hperm Hfiles.
    rewrite !hash_files_bytes, (sort_permutation_invariant _ _ Hperm).
    rewrite (regular_files_ext h h'); [done|].
    intros fn Hin. apply Hfiles.
    apply (Permutation_in fn (Permutation_sym Hperm)).
    by apply (Permutation_in fn (sort_perm names')).
  - intros d. destruct (files h dir) as [[content|names]|]; [discriminate| |];
      intros <-%Ok_inj;
      (split; [exact (proj2 (hexdigest_lower_hex _)) | exact (proj1 (hexdigest_lower_hex _))]).
Qed.

(** ** Failures *)

Lemma read_config_raises (h : host) (path : string) :
  absent_or_malformed h path -> raises (read_config h path).
Proof.
  unfold read_config, read_text. intros [H|(text & H & Hj)]; rewrite H; simpl.
  - apply raises_Raise.
  - rewrite Hj. apply raises_Raise.
Qed.

Ltac propagate :=
  repeat first [ assumption
               | apply raises_bind_l; assumption
               | apply raises_bind_r; intros ? ? ].

Lemma tenant_propagates (h : host) (a : AppConfig) :
  raises (read_config h (tenant_path h a)) -> raises (read_tenant_config h a).
Proof. intros H. unfold read_tenant_config. propagate. Qed.

Lemma project_propagates (h : host) (a : AppConfig) :
  raises (read_tenant_config h a) \/ raises (read_config h (project_path h a)) ->
  raises (read_project_config h a).
Proof. intros [H|H]; unfold read_project_config; propagate. Qed.

Lemma deployment_propagates (h : host) (a : AppConfig) :
  raises (read_tenant_config h a) \/
  raises (read_config h (py_str h (tenant a) ++ "/deployment.json")) ->
  raises (read_deployment_config h a).
Proof. intros [H|H]; unfold read_deployment_config; propagate. Qed.

Lemma model_propagates (h : host) (a : AppConfig) :
  raises (read_project_config h a) \/
  raises (read_config h (model_base_dir h a ++ "/model.json")) ->
  raises (read_model_config h a).
Proof. intros [H|H]; unfold read_model_config; propagate. Qed.

Lemma pipeline_propagates (h : host) (a : AppConfig) :
  raises (read_project_config h a) \/
  raises (read_config h (model_base_dir h a ++ "/pipeline.json")) ->
  raises (read_pipeline_config h a).
Proof. intros [H|H]; unfold read_pipeline_config; cbv zeta; propagate. Qed.

Lemma dataset_propagates (h : host) (a : AppConfig) :
  raises (read_project_config h a) \/
  raises (read_config h (model_base_dir h a ++ "/dataset.json")) \/
  raises (read_config h (model_base_dir h a ++ "/model.json")) ->
  raises (read_dataset_config h a).
Proof. intros [H|[H|H]]; unfold read_dataset_config; cbv zeta; propagate. Qed.

Lemma features_propagates (h : host) (a : AppConfig) :
  raises (read_model_config h a) \/
  raises (read_config h (model_base_dir h a ++ "/features.json")) ->
  raises (read_features_config h a).
Proof. intros [H|H]; unfold read_features_config; cbv zeta; propagate. Qed.

Lemma image_propagates (h : host) (a : AppConfig) :
  raises (read_tenant_config h a) \/ raises (read_config h "mllib/docker.json") ->
  raises (read_image_config h a).
Proof. intros [H|H]; unfold read_image_config; cbv zeta; propagate. Qed.

Lemma json_file_propagates (l : loader) (h : host) (a : AppConfig) (p : string) :
  In p (json_files l h a) -> raises (read_config h p) -> raises (run l h a).
Proof.
  intros Hin Hp.
  assert (HT : raises (read_config h (tenant_path h a)) -> raises (read_tenant_config h a))
    by apply tenant_propagates.
  assert (HP : raises (read_config h (tenant_path h a)) \/
               raises (read_config h (project_path h a)) ->
               raises (read_project_config h a)).
  { intros [H|H]; apply project_propagates; auto. }
  assert (HM : raises (read_config h (tenant_path h a)) \/
               raises (read_config h (project_path h a)) \/
               raises (read_config h (model_base_dir h a ++ "/model.json")) ->
               raises (read_model_config h a)).
  { intros [H|[H|H]]; apply model_propagates; auto. }
  destruct l; cbn [json_files merged_files List.app In] in Hin; cbn [run].
  - destruct Hin as [<-|[]]. auto.
  - destruct Hin as [<-|[<-|[]]]; apply deployment_propagates; auto.
  - destruct Hin as [<-|[<-|[]]]; auto.
  - destruct Hin as [<-|[<-|[<-|[]]]]; auto.
  - destruct Hin as [<-|[<-|[<-|[]]]]; apply pipeline_propagates; auto.
  - destruct Hin as [<-|[<-|[<-|[<-|[]]]]]; apply dataset_propagates; auto.
  - destruct Hin as [<-|[<-|[<-|[<-|[]]]]]; apply features_propagates; auto.
  - destruct Hin as [<-|[<-|[]]]; apply image_propagates; auto.
Qed.

(** C8.  Every loader raises when one of the JSON files it reads is absent
    or is not valid JSON: nothing is retried and no document is put in its
    place.  A required field that a computed step reads and does not find
    raises as well: [pipeline_schedule] in [pipeline.json] for the pipeline
    loader, [model_version] in [model.json] for the model loader,
    [model_name] in [model.json] for the dataset loader, and the
    [environment] keyword of [read_app_config].  No default stands in for a
    field of the tenant record that is neither one of the five optional
    fields nor computed: when the document and the environment entry lack
    it, the loader raises. *)
Theorem loaders_propagate_failures (h : host) (a : AppConfig) :
  (forall l p, In p (json_files l h a) -> absent_or_malformed h p -> raises (run l h a)) /\
  (forall spec,
     read_config h (model_base_dir h a ++ "/pipeline.json") = Ok (VDict spec) ->
     spec !! "pipeline_schedule" = None -> raises (read_pipeline_config h a)) /\
  (forall spec,
     read_config h (model_base_dir h a ++ "/model.json") = Ok (VDict spec) ->
     spec !! "model_version" = None -> raises (read_model_config h a)) /\
  (forall spec,
     read_config h (model_base_dir h a ++ "/model.json") = Ok (VDict spec) ->
     spec !! "model_name" = None -> raises (read_dataset_config h a)) /\
  (forall kwargs, kwargs !! "environment" = None -> raises (read_app_config kwargs)) /\
  (forall spec k,
     read_config h (tenant_path h a) = Ok (VDict spec) ->
     In k TenantConfig_fields ->
     tenant_defaults !! k = None -> tenant_computed a !! k = None ->
     spec !! k = None ->
     (forall environment_spec entry,
        get (dget spec "environments" (VDict ∅)) (environment a) (VDict ∅)
          = Ok environment_spec ->
        source_items environment_spec = Some entry -> entry !! k = None) ->
     raises (read_tenant_config h a)).
Proof.
  split; [|split; [|split; [|split; [|split]]]].
  - intros l p Hin Hp. eapply json_file_propagates; [done|]. by apply read_config_raises.
  - intros spec Hread Hk. unfold read_pipeline_config. cbv zeta.
    apply raises_bind_r. intros pc _. rewrite Hread. simpl. rewrite Hk. apply raises_Raise.
  - intros spec Hread Hk. unfold read_model_config.
    apply raises_bind_r. intros pc _. rewrite Hread. simpl.
    apply raises_bind_r. intros code _. apply raises_bind_r. intros bin _.
    rewrite Hk. apply raises_Raise.
  - intros spec Hread Hk. unfold read_dataset_config. cbv zeta.
    apply raises_bind_r. intros pc _. apply raises_bind_r. intros glue _.
    rewrite Hread. simpl. rewrite Hk. apply raises_Raise.
  - intros kwargs Hk. unfold read_app_config. simpl. rewrite Hk. apply raises_Raise.
  - intros spec k Hread Hin Hd Hc Hs He.
    destruct (raises_or_Ok (read_tenant_config h a)) as [|[r Hr]]; [done|]. exfalso.
    apply read_tenant_config_Ok in Hr
      as (spec' & es & entry & Hread' & Hget & Hitems & -> & Hdom).
    rewrite Hread in Hread'. apply Ok_inj in Hread'. injection Hread' as <-.
    assert (Hk : k ∈ dom (deepmerge (deepmerge (deepmerge tenant_defaults spec)
                                       (tenant_computed a)) entry)).
    { rewrite Hdom. apply elem_of_list_to_set. by apply list_elem_of_In. }
    apply elem_of_dom in Hk as [v Hv].
    rewrite !deepmerge_keeps in Hv by eauto. congruence.
Qed.

(** A schedule without an entry for the pipeline is no failure: the record
    then has [pipeline_schedule = None]. *)
Lemma pipeline_schedule_entry_optional (h : host) (a : AppConfig)
    (r spec schedules : gmap string value) (name : string) :
  read_config h (model_base_dir h a ++ "/pipeline.json") = Ok (VDict spec) ->
  spec !! "pipeline_schedule" = Some (VDict schedules) ->
  pipeline a = VStr name -> schedules !! name = None ->
  read_pipeline_config h a = Ok r ->
  r !! "pipeline_schedule" = Some VNone.
Proof.
  intros Hread Hs Hp Hn
    (pc & spec' & sch & ps & _ & Hread' & Hs' & Hget & -> & _)%read_pipeline_config_Ok.
  rewrite Hread in Hread'. apply Ok_inj in Hread'. injection Hread' as <-.
  rewrite Hs in Hs'. injection Hs' as <-.
  rewrite Hp in Hget. cbn [get dict_get] in Hget. rewrite Hn in Hget.
  apply Ok_inj in Hget as <-.
  apply deepmerge_wins; [|done]. unfold pipeline_computed. cbv zeta.
  repeat first [ rewrite lookup_insert_eq | rewrite lookup_insert_ne by discriminate ].
  done.
Qed.

(** ** The shape of the records *)

Lemma run_fields (l : loader) (h : host) (a : AppConfig) (r : gmap string value) :
  run l h a = Ok r -> dom r = list_to_set (record_fields l).
Proof.
  destruct l; cbn [run record_fields]; intros H.
  - by apply read_tenant_config_Ok in H as (? & ? & ? & ? & ? & ? & ? & ?).
  - by apply read_deployment_config_Ok in H as (? & ? & ? & ? & ? & ? & ? & ?).
  - by apply read_project_config_Ok in H as (? & ? & ? & ? & ? & ? & ? & ?).
  - by apply read_model_config_Ok in H as (? & ? & ? & ? & ? & ? & ? & ? & ? & ? & ? & ?).
  - by apply read_pipeline_config_Ok in H as (? & ? & ? & ? & ? & ? & ? & ? & ? & ?).
  - by apply read_dataset_config_Ok in H as (? & ? & ? & ? & ? & ? & ? & ? & ? & ? & ? & ?).
  - by apply read_features_config_Ok in H as (? & ? & ? & ? & ? & ? & ? & ?).
  - by apply read_image_config_Ok in H as (? & ? & ? & ? & ? & ? & ? & ?).
Qed.

Lemma dom_deepmerge_l (dst src : gmap string value) : dom dst ⊆ dom (deepmerge dst src).
Proof. rewrite dom_deepmerge. set_solver. Qed.

Lemma dom_deepmerge_r (dst src : gmap string value) : dom src ⊆ dom (deepmerge dst src).
Proof. rewrite dom_deepmerge. set_solver. Qed.

Lemma source_items_VDict (doc items : gmap string value) :
  source_items (VDict doc) = Some items -> items = doc.
Proof. simpl. congruence. Qed.

(** The keys of a merged document are keys of the merged mapping. *)
Lemma tenant_doc_keys (h : host) (a : AppConfig) (r doc : gmap string value) :
  read_tenant_config h a = Ok r ->
  read_config h (tenant_path h a) = Ok (VDict doc) -> dom doc ⊆ dom r.
Proof.
  intros (spec & es & entry & Hread & _ & _ & -> & _)%read_tenant_config_Ok Hdoc.
  rewrite Hread in Hdoc. apply Ok_inj in Hdoc. injection Hdoc as ->.
  etrans; [|apply dom_deepmerge_l]. etrans; [|apply dom_deepmerge_l].
  apply dom_deepmerge_r.
Qed.

Lemma project_doc_keys (h : host) (a : AppConfig) (r : gmap string value) :
  read_project_config h a = Ok r ->
  exists tc, read_tenant_config h a = Ok tc /\ dom tc ⊆ dom r /\
    forall doc, read_config h (project_path h a) = Ok (VDict doc) -> dom doc ⊆ dom r.
Proof.
  intros (tc & spec & items & Htc & Hread & Hitems & -> & _)%read_project_config_Ok.
  exists tc. split; [done|]. split; [apply dom_deepmerge_l|].
  intros doc Hdoc. rewrite Hread in Hdoc. apply Ok_inj in Hdoc. subst spec.
  apply source_items_VDict in Hitems as ->. apply dom_deepmerge_r.
Qed.

Lemma model_doc_keys (h : host) (a : AppConfig) (r : gmap string value) :
  read_model_config h a = Ok r ->
  exists pc, read_project_config h a = Ok pc /\ dom pc ⊆ dom r /\
    forall doc, read_config h (model_base_dir h a ++ "/model.json") = Ok (VDict doc) ->
                dom doc ⊆ dom r.
Proof.
  intros (pc & spec & code & bin & v & Hpc & Hread & _ & _ & _ & -> & _)%read_model_config_Ok.
  exists pc. split; [done|]. split.
  - etrans; [|apply dom_deepmerge_l]. apply dom_deepmerge_l.
  - intros doc Hdoc. rewrite Hread in Hdoc. apply Ok_inj in Hdoc. injection Hdoc as ->.
    etrans; [|apply dom_deepmerge_l]. apply dom_deepmerge_r.
Qed.

Lemma merged_doc_keys (l : loader) (h : host) (a : AppConfig)
    (r doc : gmap string value) (p : string) :
  run l h a = Ok r -> In p (merged_files l h a) ->
  read_config h p = Ok (VDict doc) -> dom doc ⊆ dom r.
Proof.
  assert (HP : forall r, read_project_config h a = Ok r ->
            (p = tenant_path h a \/ p = project_path h a) ->
            read_config h p = Ok (VDict doc) -> dom doc ⊆ dom r).
  { intros r' (tc & Htc & Hsub & Hdoc)%project_doc_keys [->| ->] Hread.
    - etrans; [|exact Hsub]. by eapply tenant_doc_keys.
    - by apply Hdoc. }
  assert (HM : forall r, read_model_config h a = Ok r ->
            (p = tenant_path h a \/ p = project_path h a \/
             p = model_base_dir h a ++ "/model.json") ->
            read_config h p = Ok (VDict doc) -> dom doc ⊆ dom r).
  { intros r' (pc & Hpc & Hsub & Hdoc)%model_doc_keys [->|[->| ->]] Hread.
    - etrans; [|exact Hsub]. apply (HP pc); auto.
    - etrans; [|exact Hsub]. apply (HP pc); auto.
    - by apply Hdoc. }
  destruct l; cbn [run merged_files In]; intros Hrun Hin Hread.
  - destruct Hin as [<-|[]]. by eapply tenant_doc_keys.
  - apply read_deployment_config_Ok in Hrun
      as (tc & spec & items & Htc & Hspec & Hitems & -> & _).
    destruct Hin as [<-|[<-|[]]].
    + etrans; [by eapply tenant_doc_keys|].
      etrans; [|apply dom_deepmerge_l]. apply dom_deepmerge_l.
    + rewrite Hspec in Hread. apply Ok_inj in Hread. subst spec.
      apply source_items_VDict in Hitems as ->. apply dom_deepmerge_r.
  - destruct Hin as [<-|[<-|[]]]; apply HP; auto.
  - destruct Hin as [<-|[<-|[<-|[]]]]; apply HM; auto.
  - apply read_pipeline_config_Ok in Hrun
      as (pc & spec & sch & ps & Hpc & Hspec & _ & _ & -> & _).
    destruct Hin as [<-|[<-|[<-|[]]]].
    + etrans; [apply (HP pc); auto|].
      etrans; [|apply dom_deepmerge_l]. apply dom_deepmerge_l.
    + etrans; [apply (HP pc); auto|].
      etrans; [|apply dom_deepmerge_l]. apply dom_deepmerge_l.
    + rewrite Hspec in Hread. apply Ok_inj in Hread. injection Hread as ->.
      etrans; [|apply dom_deepmerge_l]. apply dom_deepmerge_r.
  - apply read_dataset_config_Ok in Hrun
      as (pc & spec & items & ms & mn & Hpc & Hspec & Hitems & _ & _ & -> & _).
    destruct Hin as [<-|[<-|[<-|[]]]].
    + etrans; [apply (HP pc); auto|].
      etrans; [|apply dom_deepmerge_l]. apply dom_deepmerge_l.
    + etrans; [apply (HP pc); auto|].
      etrans; [|apply dom_deepmerge_l]. apply dom_deepmerge_l.
    + rewrite Hspec in Hread. apply Ok_inj in Hread. subst spec.
      apply source_items_VDict in Hitems as ->.
      etrans; [|apply dom_deepmerge_l]. apply dom_deepmerge_r.
  - apply read_features_config_Ok in Hrun
      as (mc & spec & items & Hmc & Hspec & Hitems & -> & _).
    destruct Hin as [<-|[<-|[<-|[<-|[]]]]].
    + etrans; [apply (HM mc); auto|]. apply dom_deepmerge_l.
    + etrans; [apply (HM mc); auto|]. apply dom_deepmerge_l.
    + etrans; [apply (HM mc); auto|]. apply dom_deepmerge_l.
    + rewrite Hspec in Hread. apply Ok_inj in Hread. subst spec.
      apply source_items_VDict in Hitems as ->. apply dom_deepmerge_r.
  - apply read_image_config_Ok in Hrun
      as (tc & spec & items & Htc & Hspec & Hitems & -> & _).
    destruct Hin as [<-|[<-|[]]].
    + etrans; [by eapply tenant_doc_keys|]. apply dom_deepmerge_l.
    + rewrite Hspec in Hread. apply Ok_inj in Hread. subst spec.
      apply source_items_VDict in Hitems as ->. apply dom_deepmerge_r.
Qed.

(** C9.  A loader that succeeds returns a record whose fields are exactly
    the declared ones, so the merged mapping it was built from had that key
    set; a merged document with a top-level key outside the declared fields
    makes the loader raise; and record construction raises on every mapping
    whose key set is not the declared one, a missing field included. *)
Theorem record_shape (l : loader) (h : host) (a : AppConfig) :
  (forall r, run l h a = Ok r -> dom r = list_to_set (record_fields l)) /\
  (forall p doc k,
     In p (merged_files l h a) -> read_config h p = Ok (VDict doc) ->
     k ∈ dom doc -> k ∉ record_fields l -> raises (run l h a)) /\
  (forall kw : gmap string value,
     dom kw <> list_to_set (record_fields l) ->
     raises (new_record (record_fields l) kw)).
Proof.
  split; [|split].
  - intros r. apply run_fields.
  - intros p doc k Hin Hread Hk Hnot.
    destruct (raises_or_Ok (run l h a)) as [|[r Hr]]; [done|]. exfalso.
    pose proof (merged_doc_keys _ _ _ _ _ _ Hr Hin Hread) as Hsub.
    pose proof (run_fields _ _ _ _ Hr) as Hdom.
    apply Hnot. apply (elem_of_list_to_set (C := gset string)).
    rewrite <- Hdom. by apply Hsub.
  - intros kw. apply new_record_raises.
Qed.

(** ** Computed fields *)

(** C10.  A record returned by the dataset loader has [force_create_flag]
    false and [table_name_prefix], [crawler_name_prefix] and [base_s3_path]
    equal to the templates computed from the identity fields, the bucket of
    the project record and the [model_name] of [model.json], whatever
    [dataset.json] holds for these fields. *)
Theorem dataset_computed_fields (h : host) (a : AppConfig) (r : gmap string value) :
  read_dataset_config h a = Ok r ->
  exists project_config model_spec model_name,
    read_project_config h a = Ok project_config /\
    read_config h (model_base_dir h a ++ "/model.json") = Ok (VDict model_spec) /\
    model_spec !! "model_name" = Some model_name /\
    let base_s3_key := s3_key h a model_name in
    r !! "force_create_flag" = Some (VBool false) /\
    r !! "table_name_prefix" = Some (VStr base_s3_key) /\
    r !! "crawler_name_prefix" = Some (VStr ("pi_risk_ml_" ++ base_s3_key)) /\
    r !! "base_s3_path" =
      Some (VStr ("s3://" ++ py_str h (project_config !!! "s3_bucket") ++ "/" ++ base_s3_key)).
Proof.
  intros (pc & glue & items & ms & mn & Hpc & _ & _ & Hms & Hmn & -> & _)%read_dataset_config_Ok.
  exists pc, ms, mn. split; [done|]. split; [done|]. split; [done|].
  cbv zeta. repeat split; (apply deepmerge_wins; [|done]); unfold dataset_computed.
  all: by simplify_map_eq.
Qed.

(** Look a literal key up in a map written as a chain of inserts. *)
Ltac map_lookup :=
  repeat first [ rewrite lookup_insert_eq
               | rewrite lookup_insert_ne by discriminate
               | rewrite lookup_singleton_eq
               | rewrite lookup_singleton_ne by discriminate
               | rewrite lookup_empty ].

(** ** The model fingerprint *)

Lemma not_project_field (pc : gmap string value) (k : string) :
  dom pc = list_to_set ProjectConfig_fields ->
  k ∉ ProjectConfig_fields -> pc !! k = None.
Proof.
  intros Hdom Hk. apply not_elem_of_dom. rewrite Hdom.
  by rewrite elem_of_list_to_set.
Qed.

Lemma model_computed_lookup (h : host) (a : AppConfig)
    (pc spec : gmap string value) (bin code sha : string) :
  let c := model_computed h a pc spec bin code sha in
  c !! "model_sha" = Some (VStr sha) /\
  c !! "model_binary_sha" = Some (VStr bin) /\
  c !! "model_code_sha" = Some (VStr code) /\
  c !! "model_version" = None /\
  c !! "base_s3_path" =
    Some (VStr (replace "_" "-" ("s3://" ++ py_str h (pc !!! "s3_bucket") ++ "/"
                                 ++ s3_key h a (model a)))).
Proof.
  unfold model_computed. cbn [list_to_map foldr uncurry fst snd].
  repeat split; by simplify_map_eq.
Qed.

Lemma model_config_fields (h : host) (a : AppConfig) (r : gmap string value) :
  read_model_config h a = Ok r ->
  exists project_config spec bin code version,
    read_project_config h a = Ok project_config /\
    read_config h (model_base_dir h a ++ "/model.json") = Ok (VDict spec) /\
    binary_sha h a spec = Ok bin /\
    model_code_hash h (model_base_dir h a ++ "/"
                       ++ py_str h (dget spec "model_source_dir" (VStr "model"))) = Ok code /\
    spec !! "model_version" = Some version /\
    r !! "model_binary_sha" = Some (VStr bin) /\
    r !! "model_code_sha" = Some (VStr code) /\
    r !! "model_version" = Some version /\
    r !! "model_sha" = Some (VStr (model_fingerprint h bin code version)) /\
    r !! "base_s3_path" =
      Some (VStr (replace "_" "-" ("s3://" ++ py_str h (project_config !!! "s3_bucket")
                                   ++ "/" ++ s3_key h a (model a)))).
Proof.
  intros (pc & spec & code & bin & v & Hpc & Hread & Hcode & Hbin & Hv & -> & _)%read_model_config_Ok.
  destruct (model_computed_lookup h a pc spec bin code (model_fingerprint h bin code v))
    as (Hsha & Hb & Hc & Hver & Hs3).
  exists pc, spec, bin, code, v. do 5 (split; [done|]).
  do 2 (split; [by apply deepmerge_wins|]).
  split; [|split; by apply deepmerge_wins].
  rewrite deepmerge_keeps by done. rewrite lookup_deepmerge, Hv.
  apply read_project_config_Ok in Hpc as (? & ? & ? & _ & _ & _ & _ & Hdom).
  rewrite (not_project_field pc "model_version" Hdom); [done|].
  rewrite list_elem_of_In. cbv. intuition discriminate.
Qed.

(** C3.  In a record returned by the model loader, [model_sha] is the
    lowercase hexadecimal SHA-1 digest of the binary hash, the source hash
    and the declared [model_version] (as an f-string renders it; a string is
    rendered as itself), concatenated in this order.  It is a function of
    these three: two invocations that agree on them agree on [model_sha]. *)
Theorem model_sha_fingerprint :
  (forall h a r, read_model_config h a = Ok r ->
     exists spec bin code version,
       read_config h (model_base_dir h a ++ "/model.json") = Ok (VDict spec) /\
       binary_sha h a spec = Ok bin /\
       model_code_hash h (model_base_dir h a ++ "/"
                          ++ py_str h (dget spec "model_source_dir" (VStr "model"))) = Ok code /\
       spec !! "model_version" = Some version /\
       r !! "model_binary_sha" = Some (VStr bin) /\
       r !! "model_code_sha" = Some (VStr code) /\
       r !! "model_version" = Some version /\
       r !! "model_sha" = Some (VStr (Sha1.hexdigest (bin ++ code ++ py_str h version))) /\
       string_forall lower_hex (Sha1.hexdigest (bin ++ code ++ py_str h version)) = true /\
       (forall s, version = VStr s ->
          r !! "model_sha" = Some (VStr (Sha1.hexdigest (bin ++ code ++ s))))) /\
  (forall h1 a1 r1 h2 a2 r2,
     read_model_config h1 a1 = Ok r1 -> read_model_config h2 a2 = Ok r2 ->
     r1 !! "model_binary_sha" = r2 !! "model_binary_sha" ->
     r1 !! "model_code_sha" = r2 !! "model_code_sha" ->
     py_str h1 <$> r1 !! "model_version" = py_str h2 <$> r2 !! "model_version" ->
     r1 !! "model_sha" = r2 !! "model_sha").
Proof.
  split.
  - intros h a r (pc & spec & bin & code & v & _ & Hread & Hbin & Hcode & Hv
                  & Hb & Hc & Hver & Hsha & _)%model_config_fields.
    exists spec, bin, code, v. do 7 (split; [done|]).
    split; [exact Hsha|]. split; [exact (proj1 (hexdigest_lower_hex _))|]. intros s ->. rewrite Hsha. unfold model_fingerprint.
    by rewrite py_str_str.
  - intros h1 a1 r1 h2 a2 r2
      (_ & _ & bin1 & code1 & v1 & _ & _ & _ & _ & _ & Hb1 & Hc1 & Hv1 & Hs1 & _)%model_config_fields
      (_ & _ & bin2 & code2 & v2 & _ & _ & _ & _ & _ & Hb2 & Hc2 & Hv2 & Hs2 & _)%model_config_fields.
    rewrite Hb1, Hb2, Hc1, Hc2, Hv1, Hv2, Hs1, Hs2. cbn [fmap option_fmap option_map].
    intros Hb%(inj Some) Hc%(inj Some) Hv%(inj Some).
    unfold model_fingerprint. congruence.
Qed.

(** ** Derived names *)

Lemma pipeline_computed_lookup (h : host) (a : AppConfig)
    (pc : gmap string value) (sched : value) (f : string) :
  In f [ "pipeline_name"; "pipeline_name_prefix"; "rule_name"; "base_s3_path" ] ->
  exists s, pipeline_computed h a pc sched !! f = Some (VStr (replace "_" "-" s)).
Proof.
  unfold pipeline_computed. cbv zeta.
  intros [<-|[<-|[<-|[<-|[]]]]]; map_lookup; eexists; reflexivity.
Qed.

(** C4, in the form that holds.  [base_s3_path] of the model loader, and
    [pipeline_name], [pipeline_name_prefix], [rule_name] and [base_s3_path]
    of the pipeline loader, contain no underscore.  The crawler name prefix
    of the dataset loader is the literal [pi_risk_ml_] followed by the table
    name prefix, with no substitution. *)
Theorem derived_names_hyphenated (h : host) (a : AppConfig) :
  (forall r, read_model_config h a = Ok r ->
     exists s, r !! "base_s3_path" = Some (VStr s) /\ contains "_" s = false) /\
  (forall r f, read_pipeline_config h a = Ok r ->
     In f [ "pipeline_name"; "pipeline_name_prefix"; "rule_name"; "base_s3_path" ] ->
     exists s, r !! f = Some (VStr s) /\ contains "_" s = false) /\
  (forall r, read_dataset_config h a = Ok r ->
     exists key, r !! "table_name_prefix" = Some (VStr key) /\
                 r !! "crawler_name_prefix" = Some (VStr ("pi_risk_ml_" ++ key))).
Proof.
  split; [|split].
  - intros r (pc & spec & bin & code & v & _ & _ & _ & _ & _ & _ & _ & _ & _ & Hs3)%model_config_fields.
    eexists. split; [exact Hs3|]. by apply contains_replace.
  - intros r f (pc & spec & sch & ps & _ & _ & _ & _ & -> & _)%read_pipeline_config_Ok Hf.
    destruct (pipeline_computed_lookup h a pc ps f Hf) as [s Hs].
    exists (replace "_" "-" s). split; [by apply deepmerge_wins|].
    by apply contains_replace.
  - intros r (pc & glue & items & ms & mn & _ & _ & _ & _ & _ & -> & _)%read_dataset_config_Ok.
    exists (s3_key h a mn).
    split; (apply deepmerge_wins; [|done]); unfold dataset_computed; by map_lookup.
Qed.

(** ** The application record *)

Lemma str_items_nonempty (kwargs : gmap string value) (keys parts : list string) :
  str_items (List.filter truthy (List.map (kwargs_get kwargs) keys)) = Ok parts ->
  parts = nonempty_values kwargs keys.
Proof.
  revert parts. induction keys as [|k keys IH]; intros parts; cbn [List.map List.filter].
  - cbn. by intros <-%Ok_inj.
  - unfold nonempty_values. cbn [omap list_omap]. fold (nonempty_values kwargs keys).
    assert (Hv : kwargs_get kwargs k = default VNone (kwargs !! k)) by reflexivity.
    destruct (kwargs !! k) as [v|]; cbn [default from_option id] in Hv; rewrite Hv; clear Hv;
      [|by apply IH].
    destruct (truthy v) eqn:Ht.
    + destruct v as [| b | z | m e | [|c s] | l | l | d]; cbn [str_items];
        try discriminate.
      intros H. inv_bind H. apply Ok_inj in H as <-. f_equal. by apply IH.
    + destruct v as [| b | z | m e | [|c s] | l | l | d]; try discriminate; apply IH.
Qed.

Lemma split_last_Ok (v : value) (s : string) :
  split_last v = Ok s -> exists raw, v = VStr raw /\ s = last_item (split "/" raw).
Proof. destruct v; simpl; try discriminate. intros <-%Ok_inj. eauto. Qed.

Lemma AppConfig_new_Ok (kw : gmap string value) (a : AppConfig) :
  AppConfig_new kw = Ok a ->
  dom kw = list_to_set AppConfig_fields /\
  environment a = kw !!! "environment" /\ fqn a = kw !!! "fqn".
Proof.
  unfold AppConfig_new. intros H. inv_bind H.
  apply new_record_Ok in Ha as [-> Hdom]. apply Ok_inj in H as <-. done.
Qed.

(** C2, in the form that holds.  [fqn] is the ['-']-join of the non-empty
    string values of tenant, project, model, pipeline and environment, in
    this order, as they are in the keyword arguments: the environment enters
    [fqn] as it was passed, while the [environment] field holds its last
    ['/']-separated segment.  The two agree when the environment passed has
    no ['/']. *)
Theorem fqn_of_raw_inputs (kwargs : gmap string value) (a : AppConfig) :
  read_app_config kwargs = Ok a ->
  exists raw,
    kwargs !! "environment" = Some (VStr raw) /\
    environment a = VStr (last_item (split "/" raw)) /\
    fqn a = VStr (join "-" (nonempty_values kwargs fqn_keys)) /\
    (contains "/" raw = false -> environment a = VStr raw).
Proof.
  unfold read_app_config. intros H. inv_bind H.
  apply getitem_Ok in Ha as (d & [= <-] & Hraw).
  apply split_last_Ok in Ha0 as (raw & -> & ->).
  apply str_items_nonempty in Ha1 as ->.
  cbn [merge merge_source bind] in Ha2. apply Ok_inj in Ha2 as <-.
  apply AppConfig_new_Ok in H as (_ & Henv & Hfqn).
  assert (He : environment a = VStr (last_item (split "/" raw))).
  { rewrite Henv. apply lookup_total_correct. apply deepmerge_wins; [|done].
    unfold app_computed. by map_lookup. }
  exists raw. split; [done|]. split; [done|]. split.
  - rewrite Hfqn. apply lookup_total_correct. apply deepmerge_wins; [|done].
    unfold app_computed. by map_lookup.
  - intros Hno. by rewrite He, last_segment_without.
Qed.

(** ** The tenant record *)

Lemma tenant_defaults_None (k : string) (d : value) :
  tenant_defaults !! k = Some d -> d = VNone.
Proof.
  unfold tenant_defaults. intros H.
  repeat (apply lookup_insert_Some in H as [[_ <-]|[_ H]]; [done|]).
  by apply lookup_singleton_Some in H as [_ <-].
Qed.

Lemma tenant_computed_defaults_disjoint (a : AppConfig) (k : string) (d : value) :
  tenant_defaults !! k = Some d -> tenant_computed a !! k = None.
Proof.
  unfold tenant_defaults. intros H.
  repeat (apply lookup_insert_Some in H as [[<- _]|[_ H]];
          [unfold tenant_computed; by map_lookup|]).
  apply lookup_singleton_Some in H as [<- _]. unfold tenant_computed. by map_lookup.
Qed.

(** A mapping merged over any value is a mapping that keeps the entries
    of the source which are not mappings themselves. *)
Lemma merge_value_mapping (m : gmap string value) (d : value) :
  exists m', merge_value (VDict m) d = VDict m' /\ dom m ⊆ dom m' /\
    forall k x, m !! k = Some x -> is_mapping x = false -> m' !! k = Some x.
Proof.
  destruct d as [| | | | | | |dst]; try (exists m; by rewrite merge_value_over_atom).
  exists (deepmerge dst m). split; [done|]. split; [apply dom_deepmerge_r|].
  intros k x Hk Hx. by apply deepmerge_wins.
Qed.

Lemma deepmerge_mapping (dst src m : gmap string value) (k : string) :
  src !! k = Some (VDict m) ->
  exists m', deepmerge dst src !! k = Some (VDict m') /\ dom m ⊆ dom m' /\
    forall k' x, m !! k' = Some x -> is_mapping x = false -> m' !! k' = Some x.
Proof.
  intros Hk. rewrite lookup_deepmerge, Hk. destruct (dst !! k) as [d|].
  - destruct (merge_value_mapping m d) as (m' & -> & H). eauto.
  - exists m. eauto.
Qed.

(** C6.  When the tenant document has an [environments] mapping with an
    entry for the current environment, every field of the entry takes
    precedence in the tenant record: a value that is not a mapping is the
    value of the field, and a mapping is merged over what the field held,
    its own values winning. *)
Theorem tenant_environment_overrides (h : host) (a : AppConfig)
    (spec envs entry r : gmap string value) (env : string) :
  read_config h (tenant_path h a) = Ok (VDict spec) ->
  spec !! "environments" = Some (VDict envs) ->
  environment a = VStr env ->
  envs !! env = Some (VDict entry) ->
  read_tenant_config h a = Ok r ->
  forall k v, entry !! k = Some v ->
    (is_mapping v = false -> r !! k = Some v) /\
    (forall m, v = VDict m ->
       exists m', r !! k = Some (VDict m') /\
         forall k' x, m !! k' = Some x -> is_mapping x = false -> m' !! k' = Some x).
Proof.
  intros Hread Henvs Henv Hentry
    (spec' & es & items & Hread' & Hget & Hitems & -> & _)%read_tenant_config_Ok k v Hk.
  rewrite Hread in Hread'. apply Ok_inj in Hread'. injection Hread' as <-.
  unfold dget in Hget. rewrite Henvs, Henv in Hget. cbn in Hget. rewrite Hentry in Hget.
  cbn in Hget. apply Ok_inj in Hget as <-. apply source_items_VDict in Hitems as ->.
  split.
  - intros Hv. by apply deepmerge_wins.
  - intros m ->.
    destruct (deepmerge_mapping
                (deepmerge (deepmerge tenant_defaults spec) (tenant_computed a))
                entry m k Hk) as (m' & Hm' & _ & Hwins).
    eauto.
Qed.

Lemma tenant_tags_keys (a : AppConfig) :
  dom (tenant_tags a) = {[ "Environment"; "BuildNumber"; "CommitSha" ]}.
Proof. unfold tenant_tags. rewrite !dom_insert_L, dom_singleton_L. set_solver. Qed.

(** C7, in the form that holds.  Unless the environment entry of the
    tenant document gives [tags] a value that is not a mapping, the [tags]
    field of the tenant record is a mapping with the keys [Environment],
    [BuildNumber] and [CommitSha]. *)
Theorem tenant_tags_present (h : host) (a : AppConfig)
    (tenant_spec environments environment_spec : value) (r : gmap string value) :
  read_config h (tenant_path h a) = Ok tenant_spec ->
  get tenant_spec (VStr "environments") (VDict ∅) = Ok environments ->
  get environments (environment a) (VDict ∅) = Ok environment_spec ->
  (forall v, getitem environment_spec "tags" = Ok v -> is_mapping v = true) ->
  read_tenant_config h a = Ok r ->
  exists tags, r !! "tags" = Some (VDict tags) /\
    {[ "Environment"; "BuildNumber"; "CommitSha" ]} ⊆ dom tags.
Proof.
  intros Hread Hget1 Hget2 Htags
    (spec & es & entry & Hread' & Hget & Hitems & -> & _)%read_tenant_config_Ok.
  rewrite Hread in Hread'. apply Ok_inj in Hread' as ->.
  cbn in Hget1. apply Ok_inj in Hget1 as <-.
  unfold dget in Hget. rewrite Hget2 in Hget. apply Ok_inj in Hget as <-.
  destruct (deepmerge_mapping (deepmerge tenant_defaults spec) (tenant_computed a)
              (tenant_tags a) "tags") as (t & Ht & Hdom & _).
  { unfold tenant_computed. by map_lookup. }
  rewrite tenant_tags_keys in Hdom.
  rewrite lookup_deepmerge. destruct (entry !! "tags") as [v|] eqn:Hv.
  - rewrite Ht.
    rewrite (source_items_dict _ _ _ _ Hitems Hv) in Htags.
    specialize (Htags v). cbn in Htags. rewrite Hv in Htags. specialize (Htags eq_refl).
    destruct v as [| | | | | | |m]; try discriminate Htags.
    exists (deepmerge t m). split; [done|]. etrans; [exact Hdom|]. apply dom_deepmerge_l.
  - rewrite Ht. eauto.
Qed.

(** ** Merge order *)

(** C1, in the form that holds.  The merge order is the loader's own.
    Tenant: hardcoded defaults, [tenant.json], computed fields, then the
    environment entry, which therefore wins over the computed fields, as
    these win over the document and the document over the defaults.
    Deployment: tenant record, computed fields, then [deployment.json], which
    wins over the computed fields.  Model, pipeline, dataset: project
    record, document, then the computed fields, which win.  Project,
    features, image: parent record, then the document.  "Wins" is for a
    value that is not a mapping; mappings are merged. *)
Theorem merge_precedence (h : host) (a : AppConfig) :
  (* tenant: defaults, tenant.json, computed fields, environment entry *)
  (forall r, read_tenant_config h a = Ok r ->
     exists spec environment_spec entry,
       read_config h (tenant_path h a) = Ok (VDict spec) /\
       get (dget spec "environments" (VDict ∅)) (environment a) (VDict ∅)
         = Ok environment_spec /\
       source_items environment_spec = Some entry /\
       (forall k v, entry !! k = Some v -> is_mapping v = false -> r !! k = Some v) /\
       (forall k v, tenant_computed a !! k = Some v -> is_mapping v = false ->
                    entry !! k = None -> r !! k = Some v) /\
       (forall k d v, tenant_defaults !! k = Some d -> spec !! k = Some v ->
                      entry !! k = None -> r !! k = Some v)) /\
  (* deployment: tenant record, computed fields, deployment.json *)
  (forall r, read_deployment_config h a = Ok r ->
     exists tenant_config deployment_spec items,
       read_tenant_config h a = Ok tenant_config /\
       read_config h (py_str h (tenant a) ++ "/deployment.json") = Ok deployment_spec /\
       source_items deployment_spec = Some items /\
       (forall k v, items !! k = Some v -> is_mapping v = false -> r !! k = Some v) /\
       (forall k v, deployment_computed h a tenant_config !! k = Some v ->
                    is_mapping v = false -> items !! k = None -> r !! k = Some v)) /\
  (* model, pipeline, dataset: project record, document, computed fields *)
  (forall r, read_model_config h a = Ok r ->
     exists project_config spec bin code sha,
       read_project_config h a = Ok project_config /\
       read_config h (model_base_dir h a ++ "/model.json") = Ok (VDict spec) /\
       forall k v, model_computed h a project_config spec bin code sha !! k = Some v ->
                   is_mapping v = false -> r !! k = Some v) /\
  (forall r, read_pipeline_config h a = Ok r ->
     exists project_config spec pipeline_schedule,
       read_project_config h a = Ok project_config /\
       read_config h (model_base_dir h a ++ "/pipeline.json") = Ok (VDict spec) /\
       forall k v, pipeline_computed h a project_config pipeline_schedule !! k = Some v ->
                   is_mapping v = false -> r !! k = Some v) /\
  (forall r, read_dataset_config h a = Ok r ->
     exists project_config glue_spec model_name,
       read_project_config h a = Ok project_config /\
       read_config h (model_base_dir h a ++ "/dataset.json") = Ok glue_spec /\
       forall k v, dataset_computed h a project_config model_name !! k = Some v ->
                   is_mapping v = false -> r !! k = Some v) /\
  (* project, features, image: parent record, document *)
  (forall r, read_project_config h a = Ok r ->
     exists tenant_config spec items,
       read_tenant_config h a = Ok tenant_config /\
       read_config h (project_path h a) = Ok spec /\
       source_items spec = Some items /\
       (forall k v, items !! k = Some v -> is_mapping v = false -> r !! k = Some v) /\
       (forall k, items !! k = None -> r !! k = tenant_config !! k)) /\
  (forall r, read_features_config h a = Ok r ->
     exists model_config spec items,
       read_model_config h a = Ok model_config /\
       read_config h (model_base_dir h a ++ "/features.json") = Ok spec /\
       source_items spec = Some items /\
       (forall k v, items !! k = Some v -> is_mapping v = false -> r !! k = Some v) /\
       (forall k, items !! k = None -> r !! k = model_config !! k)) /\
  (forall r, read_image_config h a = Ok r ->
     exists tenant_config spec items,
       read_tenant_config h a = Ok tenant_config /\
       read_config h "mllib/docker.json" = Ok spec /\
       source_items spec = Some items /\
       (forall k v, items !! k = Some v -> is_mapping v = false -> r !! k = Some v) /\
       (forall k, items !! k = None -> r !! k = tenant_config !! k)).
Proof.
  split; [|split; [|split; [|split; [|split; [|split; [|split]]]]]].
  - intros r (spec & es & entry & Hread & Hget & Hitems & -> & _)%read_tenant_config_Ok.
    exists spec, es, entry. do 3 (split; [done|]). split; [|split].
    + intros k v Hk Hv. by apply deepmerge_wins.
    + intros k v Hk Hv Hno. rewrite deepmerge_keeps by done. by apply deepmerge_wins.
    + intros k d v Hd Hk Hno. rewrite deepmerge_keeps by done.
      rewrite deepmerge_keeps by (by eapply tenant_computed_defaults_disjoint).
      rewrite lookup_deepmerge, Hk, Hd.
      by rewrite (tenant_defaults_None _ _ Hd), merge_value_over_atom.
  - intros r (tc & spec & items & Htc & Hread & Hitems & -> & _)%read_deployment_config_Ok.
    exists tc, spec, items. do 3 (split; [done|]). split.
    + intros k v Hk Hv. by apply deepmerge_wins.
    + intros k v Hk Hv Hno. rewrite deepmerge_keeps by done. by apply deepmerge_wins.
  - intros r (pc & spec & code & bin & v & Hpc & Hread & _ & _ & _ & -> & _)%read_model_config_Ok.
    exists pc, spec, bin, code, (model_fingerprint h bin code v).
    do 2 (split; [done|]). intros k x Hk Hx. by apply deepmerge_wins.
  - intros r (pc & spec & sch & ps & Hpc & Hread & _ & _ & -> & _)%read_pipeline_config_Ok.
    exists pc, spec, ps. do 2 (split; [done|]). intros k x Hk Hx. by apply deepmerge_wins.
  - intros r (pc & glue & items & ms & mn & Hpc & Hread & _ & _ & _ & -> & _)%read_dataset_config_Ok.
    exists pc, glue, mn. do 2 (split; [done|]). intros k x Hk Hx. by apply deepmerge_wins.
  - intros r (tc & spec & items & Htc & Hread & Hitems & -> & _)%read_project_config_Ok.
    exists tc, spec, items. do 3 (split; [done|]). split.
    + intros k x Hk Hx. by apply deepmerge_wins.
    + intros k Hk. by apply deepmerge_keeps.
  - intros r (mc & spec & items & Hmc & Hread & Hitems & -> & _)%read_features_config_Ok.
    exists mc, spec, items. do 3 (split; [done|]). split.
    + intros k x Hk Hx. by apply deepmerge_wins.
    + intros k Hk. by apply deepmerge_keeps.
  - intros r (tc & spec & items & Htc & Hread & Hitems & -> & _)%read_image_config_Ok.
    exists tc, spec, items. do 3 (split; [done|]). split.
    + intros k x Hk Hx. by apply deepmerge_wins.
    + intros k Hk. by apply deepmerge_keeps.
Qed.

(** ** The loaders on the concrete host *)

(** Settle a closed equation, or the difference of two closed values, by
    evaluation. *)
Ltac evaluate :=
  try apply the_Ok;
  vm_compute; first [ reflexivity | discriminate | (let H := fresh in intros H; discriminate H) ].

(** C1 fails as stated: in the deployment loader the value of
    [deployment.json] replaces the computed [branch], and in the tenant
    loader the value of the environment entry replaces the computed
    [build_artifacts]. *)
Lemma computed_fields_overridden :
  exists tc r t,
    read_tenant_config Acme.host (Acme.app "prod") = Ok tc /\
    read_deployment_config Acme.host (Acme.app "prod") = Ok r /\
    deployment_computed Acme.host (Acme.app "prod") tc !! "branch"
      = Some (VStr "main") /\
    getitem Acme.deployment_doc "branch" = Ok (VStr "release") /\
    r !! "branch" = Some (VStr "release") /\
    r !! "branch" <> deployment_computed Acme.host (Acme.app "prod") tc !! "branch" /\
    read_tenant_config Acme.host (Acme.app "qa") = Ok t /\
    tenant_computed (Acme.app "qa") !! "build_artifacts" = Some (VStr "./artifacts") /\
    t !! "build_artifacts" = Some (VStr "/srv/out") /\
    t !! "build_artifacts" <> tenant_computed (Acme.app "qa") !! "build_artifacts".
Proof.
  exists (the ∅ (read_tenant_config Acme.host (Acme.app "prod"))),
         (the ∅ (read_deployment_config Acme.host (Acme.app "prod"))),
         (the ∅ (read_tenant_config Acme.host (Acme.app "qa"))).
  repeat apply conj; evaluate.
Qed.

(** C2 fails as stated: for the environment [release/prod] the record has
    [environment = prod] while [fqn] ends in [release/prod]. *)
Lemma fqn_keeps_raw_environment :
  exists a,
    read_app_config (Acme.kwargs "release/prod") = Ok a /\
    environment a = VStr "prod" /\
    fqn a = VStr "acme-risk-churn_v1-train-release/prod" /\
    fqn a <> VStr (join "-" [ "acme"; "risk"; "churn_v1"; "train"; "prod" ]).
Proof.
  exists (the (Acme.app "") (read_app_config (Acme.kwargs "release/prod"))).
  repeat apply conj; evaluate.
Qed.

(** C4 fails as stated: the crawler name prefix and the [base_s3_path] of
    the dataset loader keep underscores. *)
Lemma dataset_names_keep_underscores :
  exists r,
    read_dataset_config Acme.host (Acme.app "prod") = Ok r /\
    r !! "crawler_name_prefix" = Some (VStr "pi_risk_ml_acme-risk-churn_v1-prod") /\
    contains "_" "pi_risk_ml_acme-risk-churn_v1-prod" = true /\
    r !! "base_s3_path" = Some (VStr "s3://prod-bucket/acme-risk-churn_v1-prod") /\
    contains "_" "s3://prod-bucket/acme-risk-churn_v1-prod" = true.
Proof.
  exists (the ∅ (read_dataset_config Acme.host (Acme.app "prod"))).
  repeat apply conj; evaluate.
Qed.

(** C7 fails as stated: an environment entry with [tags: "none"] leaves a
    string in the [tags] field. *)
Lemma tags_replaced_by_environment_entry :
  exists r,
    read_tenant_config Acme.host (Acme.app "dev") = Ok r /\
    r !! "tags" = Some (VStr "none") /\
    is_mapping (VStr "none") = false.
Proof.
  exists (the ∅ (read_tenant_config Acme.host (Acme.app "dev"))).
  repeat apply conj; evaluate.
Qed.

(** ** Instances on the concrete host *)

(** The tenant loader in environment [qa]: the entry's [build_artifacts]
    wins over the computed one. *)
Lemma merge_precedence_witness :
  exists r (entry : gmap string value),
    read_tenant_config Acme.host (Acme.app "qa") = Ok r /\
    entry !! "build_artifacts" = Some (VStr "/srv/out") /\
    forall k v, entry !! k = Some v -> is_mapping v = false -> r !! k = Some v.
Proof.
  set (h := Acme.host). set (a := Acme.app "qa").
  set (r := the ∅ (read_tenant_config h a)).
  assert (Hr : read_tenant_config h a = Ok r) by evaluate.
  destruct (proj1 (merge_precedence h a) r Hr)
    as (spec & es & entry & Hread & Hget & Hitems & Hentry & _).
  assert (Hspec : read_config h (tenant_path h a) = Ok Acme.tenant_doc) by evaluate.
  rewrite Hspec in Hread. apply Ok_inj in Hread. injection Hread as <-.
  assert (Hes : get (dget Acme.tenant_spec "environments" (VDict ∅)) (environment a)
                  (VDict ∅) = Ok (VDict {[ "build_artifacts" := VStr "/srv/out" ]}))
    by evaluate.
  rewrite Hes in Hget. apply Ok_inj in Hget as <-. apply source_items_VDict in Hitems as ->.
  exists r. eexists. split; [exact Hr|]. split; [|exact Hentry]. evaluate.
Defined.

(** [read_app_config] on the environment [release/prod]. *)
Lemma fqn_of_raw_inputs_witness :
  exists a,
    read_app_config (Acme.kwargs "release/prod") = Ok a /\
    fqn a = VStr "acme-risk-churn_v1-train-release/prod" /\
    environment a = VStr "prod".
Proof.
  set (kwargs := Acme.kwargs "release/prod").
  set (a := the (Acme.app "") (read_app_config kwargs)).
  assert (Ha : read_app_config kwargs = Ok a) by evaluate.
  destruct (fqn_of_raw_inputs kwargs a Ha) as (raw & Hraw & Henv & Hfqn & _).
  assert (Hk : kwargs !! "environment" = Some (VStr "release/prod")) by evaluate.
  rewrite Hk in Hraw. injection Hraw as <-.
  exists a. split; [exact Ha|]. rewrite Hfqn, Henv. split; evaluate.
Defined.

(** The model loader on the model [churn_v1]. *)
Lemma model_sha_fingerprint_witness :
  exists r bin code version,
    read_model_config Acme.host (Acme.app "prod") = Ok r /\
    r !! "model_binary_sha" = Some (VStr bin) /\
    r !! "model_code_sha" = Some (VStr code) /\
    r !! "model_version" = Some version /\
    r !! "model_sha"
      = Some (VStr (Sha1.hexdigest (bin ++ code ++ py_str Acme.host version))).
Proof.
  set (h := Acme.host). set (a := Acme.app "prod").
  set (r := the ∅ (read_model_config h a)).
  assert (Hr : read_model_config h a = Ok r) by evaluate.
  destruct (proj1 model_sha_fingerprint h a r Hr)
    as (spec & bin & code & v & _ & _ & _ & _ & Hb & Hc & Hv & Hsha & _).
  exists r, bin, code, v. auto.
Defined.

(** The pipeline loader on the model [churn_v1]. *)
Lemma derived_names_hyphenated_witness :
  exists r s,
    read_pipeline_config Acme.host (Acme.app "prod") = Ok r /\
    r !! "pipeline_name" = Some (VStr s) /\ contains "_" s = false.
Proof.
  set (h := Acme.host). set (a := Acme.app "prod").
  set (r := the ∅ (read_pipeline_config h a)).
  assert (Hr : read_pipeline_config h a = Ok r) by evaluate.
  destruct (proj1 (proj2 (derived_names_hyphenated h a)) r "pipeline_name" Hr)
    as (s & Hs & Hno); [by left|].
  exists r, s. auto.
Defined.

(** The source hash of the model [churn_v1], and of a model without
    source directory. *)
Lemma model_code_hash_spec_witness :
  files Acme.host "acme/risk/churn_v1/model"
    = Some (Dir [ "train.py"; "model.bin"; "lib"; "infer.py" ]) /\
  model_code_hash Acme.host "acme/risk/churn_v1/model"
    = Ok (Sha1.hexdigest
            (concat_bytes
               (regular_files Acme.host "acme/risk/churn_v1/model"
                  (sort [ "train.py"; "model.bin"; "lib"; "infer.py" ])))) /\
  files Acme.host "acme/risk/legacy/model" = None /\
  model_code_hash Acme.host "acme/risk/legacy/model"
    = Ok "da39a3ee5e6b4b0d3255bfef95601890afd80709".
Proof.
  set (h := Acme.host). set (dir := "acme/risk/churn_v1/model").
  set (names := [ "train.py"; "model.bin"; "lib"; "infer.py" ]).
  assert (Hd : files h dir = Some (Dir names)) by evaluate.
  assert (Hn : files h "acme/risk/legacy/model" = None) by evaluate.
  split; [exact Hd|]. split; [|split; [exact Hn|]].
  - exact (proj1 (proj1 (proj2 (model_code_hash_spec h dir)) names Hd)).
  - exact (proj1 (model_code_hash_spec h "acme/risk/legacy/model") Hn).
Defined.

(** The tenant loader in environment [prod]: [s3_bucket] is [default] in the
    tenant document, [prod-bucket] in the entry and in the record. *)
Lemma tenant_environment_overrides_witness :
  exists r,
    Acme.tenant_spec !! "s3_bucket" = Some (VStr "default") /\
    Acme.prod_entry !! "s3_bucket" = Some (VStr "prod-bucket") /\
    read_tenant_config Acme.host (Acme.app "prod") = Ok r /\
    r !! "s3_bucket" = Some (VStr "prod-bucket").
Proof.
  set (h := Acme.host). set (a := Acme.app "prod").
  set (r := the ∅ (read_tenant_config h a)).
  assert (Hr : read_tenant_config h a = Ok r) by evaluate.
  assert (Hk : Acme.prod_entry !! "s3_bucket" = Some (VStr "prod-bucket")) by evaluate.
  exists r. split; [evaluate|]. split; [exact Hk|]. split; [exact Hr|].
  refine (proj1 (tenant_environment_overrides h a Acme.tenant_spec
                   Acme.tenant_environments Acme.prod_entry r "prod"
                   _ _ _ _ Hr "s3_bucket" (VStr "prod-bucket") Hk) _);
    evaluate.
Defined.

(** The tenant loader in environment [prod], whose entry has no [tags]. *)
Lemma tenant_tags_present_witness :
  exists r tags,
    read_tenant_config Acme.host (Acme.app "prod") = Ok r /\
    r !! "tags" = Some (VDict tags) /\
    {[ "Environment"; "BuildNumber"; "CommitSha" ]} ⊆ dom tags.
Proof.
  set (h := Acme.host). set (a := Acme.app "prod").
  set (r := the ∅ (read_tenant_config h a)).
  assert (Hr : read_tenant_config h a = Ok r) by evaluate.
  assert (H1 : read_config h (tenant_path h a) = Ok Acme.tenant_doc) by evaluate.
  assert (H2 : get Acme.tenant_doc (VStr "environments") (VDict ∅)
               = Ok (VDict Acme.tenant_environments)) by evaluate.
  assert (H3 : get (VDict Acme.tenant_environments) (environment a) (VDict ∅)
               = Ok (VDict Acme.prod_entry)) by evaluate.
  assert (H4 : forall v, getitem (VDict Acme.prod_entry) "tags" = Ok v ->
                         is_mapping v = true) by evaluate.
  destruct (tenant_tags_present h a _ _ _ r H1 H2 H3 H4 Hr) as (tags & Ht & Hdom).
  exists r, tags. auto.
Defined.

(** A project without [project.json], and a [pipeline.json] without
    [pipeline_schedule]. *)
Lemma loaders_propagate_failures_witness :
  absent_or_malformed Acme.host "acme/fraud/project.json" /\
  raises (run Pipeline Acme.host (Acme.app_of "fraud" "churn_v1" "prod")) /\
  read_config Acme.host "acme/risk/legacy/pipeline.json" = Ok (VDict ∅) /\
  raises (read_pipeline_config Acme.host (Acme.app_of "risk" "legacy" "prod")).
Proof.
  set (h := Acme.host).
  assert (Hp : absent_or_malformed h "acme/fraud/project.json") by (left; evaluate).
  assert (Hl : read_config h "acme/risk/legacy/pipeline.json" = Ok (VDict ∅)) by evaluate.
  split; [exact Hp|]. split; [|split; [exact Hl|]].
  - refine (proj1 (loaders_propagate_failures h (Acme.app_of "fraud" "churn_v1" "prod"))
              Pipeline "acme/fraud/project.json" _ Hp).
    right. left. evaluate.
  - refine (proj1 (proj2 (loaders_propagate_failures h (Acme.app_of "risk" "legacy" "prod")))
              ∅ Hl _).
    evaluate.
Defined.

(** The tenant record, and a [project.json] with a key that is no field. *)
Lemma record_shape_witness :
  exists r,
    run Tenant Acme.host (Acme.app "prod") = Ok r /\
    dom r = list_to_set TenantConfig_fields /\
    read_config Acme.host "acme/wide/project.json" = Ok (VDict Acme.wide_project_spec) /\
    raises (run Project Acme.host (Acme.app_of "wide" "churn_v1" "prod")).
Proof.
  set (h := Acme.host). set (r := the ∅ (read_tenant_config h (Acme.app "prod"))).
  assert (Hr : run Tenant h (Acme.app "prod") = Ok r) by evaluate.
  assert (Hw : read_config h "acme/wide/project.json" = Ok (VDict Acme.wide_project_spec))
    by evaluate.
  exists r. split; [exact Hr|]. split; [|split; [exact Hw|]].
  - exact (proj1 (record_shape Tenant h (Acme.app "prod")) r Hr).
  - refine (proj1 (proj2 (record_shape Project h (Acme.app_of "wide" "churn_v1" "prod")))
              "acme/wide/project.json" Acme.wide_project_spec "owner" _ Hw _ _).
    + right. left. evaluate.
    + apply elem_of_dom. exists (VStr "ops"). evaluate.
    + rewrite list_elem_of_In. cbv. intuition discriminate.
Defined.

(** The dataset loader on the model [churn_v1]. *)
Lemma dataset_computed_fields_witness :
  exists r key,
    read_dataset_config Acme.host (Acme.app "prod") = Ok r /\
    r !! "force_create_flag" = Some (VBool false) /\
    r !! "table_name_prefix" = Some (VStr key) /\
    r !! "crawler_name_prefix" = Some (VStr ("pi_risk_ml_" ++ key)).
Proof.
  set (h := Acme.host). set (a := Acme.app "prod").
  set (r := the ∅ (read_dataset_config h a)).
  assert (Hr : read_dataset_config h a = Ok r) by evaluate.
  destruct (dataset_computed_fields h a r Hr)
    as (pc & ms & mn & _ & _ & _ & Hf & Ht & Hc & _).
  exists r. eexists. eauto.
Defined.

(** * Further properties *)

#[local] Set Warnings "-clear-no-such-hyp".

(** ** Deep merge, continued *)

Lemma depth_lookup (m : gmap string value) (k : string) (x : value) :
  m !! k = Some x -> depth x < depth (VDict m).
Proof.
  cbn [depth]. intros Hk. apply Nat.lt_succ_r. revert k x Hk.
  apply (map_fold_weak_ind (fun (acc : nat) (m : gmap string value) =>
           forall k x, m !! k = Some x -> depth x <= acc)).
  - intros k x Hk. by rewrite lookup_empty in Hk.
  - intros i y m' acc Hi IH k x Hk.
    apply lookup_insert_Some in Hk as [[_ ->]|[_ Hk]]; [lia|].
    specialize (IH _ _ Hk). lia.
Qed.

(** Merging a value over itself changes nothing. *)
Lemma merge_value_idem (v : value) : merge_value v v = v.
Proof.
  remember (S (depth v)) as n eqn:Hn.
  assert (Hlt : depth v < n) by lia. clear Hn. revert v Hlt.
  induction n as [|n IH]; intros v Hlt; [lia|].
  destruct v as [| | | | | | |m]; try reflexivity.
  cbn [merge_value]. f_equal. apply map_eq. intros k.
  fold (deepmerge m m). rewrite lookup_deepmerge.
  destruct (m !! k) as [x|] eqn:Hk; [|done].
  rewrite IH; [done|]. pose proof (depth_lookup m k x Hk). lia.
Qed.

Lemma deepmerge_idem (m : gmap string value) : deepmerge m m = m.
Proof.
  pose proof (merge_value_idem (VDict m)) as H. cbn [merge_value] in H.
  by injection H.
Qed.

(** ** The application record, continued *)

Lemma split_nonempty (c : ascii) (s : string) : split c s <> [].
Proof.
  destruct s as [|a s]; cbn [split]; [done|].
  destruct (Ascii.eqb a c); [done|]. by destruct (split c s).
Qed.

Lemma split_single (c : ascii) (s h : string) :
  split c s = [h] -> contains c s = false /\ h = s.
Proof.
  revert h. induction s as [|a s IH]; intros h; cbn [split contains].
  - by intros [= <-].
  - pose proof (split_nonempty c s) as Hne.
    destruct (Ascii.eqb a c); [by destruct (split c s)|].
    destruct (split c s) as [|h' t]; [done|].
    intros [= <- ->]. destruct (IH h' eq_refl) as [-> ->]. done.
Qed.

(** The last segment has no separator, and the string ends with it, after
    a separator when there is one. *)
Lemma last_segment_spec (c : ascii) (s : string) :
  contains c (last_item (split c s)) = false /\
  (s = last_item (split c s) \/
   exists p, s = p ++ String c (last_item (split c s))).
Proof.
  unfold last_item. induction s as [|a s [IHc IHs]]; cbn [split].
  - split; [done|by left].
  - pose proof (split_nonempty c s) as Hne.
    destruct (Ascii.eqb a c) eqn:Ea.
    + apply Ascii.eqb_eq in Ea as ->.
      destruct (split c s) as [|h t] eqn:Hs; [done|].
      change (List.last ("" :: h :: t) "") with (List.last (h :: t) "").
      split; [done|]. right. destruct IHs as [->|[p ->]].
      * by exists "".
      * exists (String c p). by rewrite string_app_cons.
    + destruct (split c s) as [|h [|h' t]] eqn:Hs; [done| |].
      * apply split_single in Hs as [Hc ->]. cbn [List.last contains].
        rewrite Ea, Hc. split; [done|by left].
      * change (List.last (String a h :: h' :: t) "") with (List.last (h :: h' :: t) "").
        split; [done|]. right. destruct IHs as [Heq|[p ->]].
        -- rewrite Heq in Hs at 1. rewrite split_without in Hs by done. done.
        -- exists (String a p). by rewrite string_app_cons.
Qed.

Lemma str_items_Ok_iff (l : list value) :
  (exists parts, str_items l = Ok parts) <-> (forall v, In v l -> exists s, v = VStr s).
Proof.
  induction l as [|v l IH]; cbn [str_items].
  - split; [intros _ v []|eauto].
  - split.
    + intros [parts H] w [<-|Hw].
      * destruct v; try discriminate H. eauto.
      * destruct v; try discriminate H. inv_bind H. apply IH; eauto.
    + intros H. destruct (H v (or_introl eq_refl)) as [s ->].
      destruct (proj2 IH (fun w Hw => H w (or_intror Hw))) as [parts ->]. cbn. eauto.
Qed.

Lemma str_items_raises (l : list value) (e : exn) :
  str_items l = Raise e -> e = TypeError.
Proof.
  revert e. induction l as [|v l IH]; intros e; cbn [str_items]; [discriminate|].
  destruct v; try (by intros [= <-]).
  destruct (str_items l); cbn; [discriminate|]. intros [= <-]. by apply IH.
Qed.

Lemma identity_items (kwargs : gmap string value) (v : value) :
  In v (List.filter truthy (List.map (kwargs_get kwargs) fqn_keys)) <->
  exists k, In k fqn_keys /\ kwargs !! k = Some v /\ truthy v = true.
Proof.
  rewrite filter_In, in_map_iff. split.
  - intros [(k & <- & Hk) Ht]. exists k. split; [done|].
    unfold kwargs_get, dget in *. destruct (kwargs !! k); [done|discriminate Ht].
  - intros (k & Hk & Hv & Ht). split; [|done]. exists k. split; [|done].
    unfold kwargs_get, dget. by rewrite Hv.
Qed.

Lemma app_computed_dom (kwargs : gmap string value) (env fqn : string) :
  dom (app_computed kwargs env fqn) =
  {[ "debug"; "model"; "project"; "pipeline"; "branch"; "feature_engineering_jar";
     "environment"; "fqn" ]}.
Proof. unfold app_computed. rewrite !dom_insert_L, dom_singleton_L. set_solver. Qed.

Lemma AppConfig_fields_set :
  (list_to_set AppConfig_fields : gset string) =
  {[ "tenant"; "build_number"; "commit_sha" ]} ∪
  {[ "debug"; "model"; "project"; "pipeline"; "branch"; "feature_engineering_jar";
     "environment"; "fqn" ]}.
Proof. unfold AppConfig_fields. cbn [list_to_set foldr]. set_solver. Qed.

Lemma AppConfig_new_inv (kw : gmap string value) (a : AppConfig) :
  AppConfig_new kw = Ok a ->
  dom kw = list_to_set AppConfig_fields /\
  a = {| branch := kw !!! "branch"; build_number := kw !!! "build_number";
         commit_sha := kw !!! "commit_sha"; environment := kw !!! "environment";
         feature_engineering_jar := kw !!! "feature_engineering_jar";
         fqn := kw !!! "fqn"; model := kw !!! "model"; pipeline := kw !!! "pipeline";
         project := kw !!! "project"; tenant := kw !!! "tenant";
         debug := kw !!! "debug" |}.
Proof.
  unfold AppConfig_new. intros H. inv_bind H.
  apply new_record_Ok in Ha as [-> Hdom]. by apply Ok_inj in H as <-.
Qed.

Lemma read_app_config_Ok (kwargs : gmap string value) (a : AppConfig) :
  read_app_config kwargs = Ok a ->
  exists raw parts,
    kwargs !! "environment" = Some (VStr raw) /\
    str_items (List.filter truthy (List.map (kwargs_get kwargs) fqn_keys)) = Ok parts /\
    AppConfig_new (deepmerge kwargs
                     (app_computed kwargs (last_item (split "/" raw)) (join "-" parts)))
      = Ok a.
Proof.
  unfold read_app_config. intros H. inv_bind H.
  apply getitem_Ok in Ha as (d & [= <-] & Hraw).
  apply split_last_Ok in Ha0 as (raw & -> & ->).
  cbn [merge merge_source bind] in Ha2. apply Ok_inj in Ha2 as <-.
  eauto.
Qed.

(** A value passed for a key, merged with itself or put in when absent. *)
Lemma lookup_total_deepmerge_default (kwargs c : gmap string value) (k : string) (d : value) :
  c !! k = Some (dget kwargs k d) -> deepmerge kwargs c !!! k = dget kwargs k d.
Proof.
  intros Hc. apply lookup_total_correct. rewrite lookup_deepmerge, Hc.
  unfold dget. destruct (kwargs !! k) as [x|]; cbn [default from_option id]; [|done].
  by rewrite merge_value_idem.
Qed.

Lemma lookup_total_deepmerge_keeps (kwargs c : gmap string value) (k : string) :
  c !! k = None -> deepmerge kwargs c !!! k = kwargs_get kwargs k.
Proof.
  intros Hc. rewrite lookup_total_alt, deepmerge_keeps by done. done.
Qed.

(** X1.  Every field other than [environment] and [fqn] is the keyword
    argument as passed; an absent optional one is [None], and [debug] is
    [False]. *)
Theorem app_fields_as_passed (kwargs : gmap string value) (a : AppConfig) :
  read_app_config kwargs = Ok a ->
  (exists t b c, kwargs !! "tenant" = Some t /\ kwargs !! "build_number" = Some b /\
     kwargs !! "commit_sha" = Some c /\
     tenant a = t /\ build_number a = b /\ commit_sha a = c) /\
  model a = kwargs_get kwargs "model" /\
  project a = kwargs_get kwargs "project" /\
  pipeline a = kwargs_get kwargs "pipeline" /\
  branch a = kwargs_get kwargs "branch" /\
  feature_engineering_jar a = kwargs_get kwargs "feature_engineering_jar" /\
  debug a = dget kwargs "debug" (VBool false).
Proof.
  intros (raw & parts & Hraw & Hparts & (Hdom & ->)%AppConfig_new_inv)%read_app_config_Ok.
  cbn [tenant build_number commit_sha model project pipeline branch
       feature_engineering_jar debug].
  split.
  - rewrite dom_deepmerge, app_computed_dom, AppConfig_fields_set in Hdom.
    assert (Hin : forall k, In k [ "tenant"; "build_number"; "commit_sha" ] -> k ∈ dom kwargs).
    { intros k Hk.
      assert (Hk' : k ∈ dom kwargs ∪ ({[ "debug"; "model"; "project"; "pipeline"; "branch";
                      "feature_engineering_jar"; "environment"; "fqn" ]} : gset string)).
      { rewrite Hdom. apply elem_of_union_l.
        destruct Hk as [<-|[<-|[<-|[]]]]; set_solver. }
      apply elem_of_union in Hk' as [|Hk']; [done|]. exfalso.
      set_unfold. destruct Hk as [<-|[<-|[<-|[]]]]; intuition discriminate. }
    assert (Ht := Hin "tenant" ltac:(cbn; tauto)).
    assert (Hb := Hin "build_number" ltac:(cbn; tauto)).
    assert (Hc := Hin "commit_sha" ltac:(cbn; tauto)).
    apply elem_of_dom in Ht as [t Ht]. apply elem_of_dom in Hb as [b Hb].
    apply elem_of_dom in Hc as [c Hc].
    exists t, b, c. do 3 (split; [done|]).
    rewrite !lookup_total_deepmerge_keeps by (unfold app_computed; by map_lookup).
    unfold kwargs_get, dget. by rewrite Ht, Hb, Hc.
  - repeat apply conj;
      (apply lookup_total_deepmerge_default; unfold app_computed; by map_lookup).
Qed.

Lemma read_app_config_succeeds (kwargs : gmap string value) (raw : string) :
  kwargs !! "environment" = Some (VStr raw) ->
  (forall k v, In k fqn_keys -> kwargs !! k = Some v -> truthy v = true ->
               exists s, v = VStr s) ->
  (forall k, k ∈ dom kwargs -> In k AppConfig_fields) ->
  (forall k, In k [ "tenant"; "build_number"; "commit_sha" ] -> k ∈ dom kwargs) ->
  exists a, read_app_config kwargs = Ok a.
Proof.
  intros Hraw Hstr Hsub Hreq. unfold read_app_config.
  cbn [getitem]. rewrite Hraw. cbn [bind split_last].
  destruct (proj2 (str_items_Ok_iff
              (List.filter truthy (List.map (kwargs_get kwargs) fqn_keys)))) as [parts ->].
  { intros v (k & Hk & Hv & Ht)%identity_items. eauto. }
  cbn [bind merge merge_source]. unfold AppConfig_new, new_record.
  rewrite bool_decide_eq_true_2; [cbn; eauto|].
  rewrite dom_deepmerge, app_computed_dom, AppConfig_fields_set.
  apply set_eq. intros k. split.
  - intros [Hk|Hk]%elem_of_union; [|by apply elem_of_union_r].
    apply Hsub in Hk. rewrite <- AppConfig_fields_set.
    apply elem_of_list_to_set. by apply list_elem_of_In.
  - intros [Hk|Hk]%elem_of_union; [|by apply elem_of_union_r].
    apply elem_of_union_l, Hreq. set_unfold in Hk. destruct_or?; subst; cbn; tauto.
Qed.

(** X2.  The keyword arguments [read_app_config] accepts. *)
Theorem read_app_config_accepts (kwargs : gmap string value) :
  (exists a, read_app_config kwargs = Ok a) <->
  (exists raw, kwargs !! "environment" = Some (VStr raw)) /\
  (forall k v, In k fqn_keys -> kwargs !! k = Some v -> truthy v = true ->
               exists s, v = VStr s) /\
  (forall k, k ∈ dom kwargs -> In k AppConfig_fields) /\
  (forall k, In k [ "tenant"; "build_number"; "commit_sha" ] -> k ∈ dom kwargs).
Proof.
  split.
  - intros [a (raw & parts & Hraw & Hparts & (Hdom & _)%AppConfig_new_inv)%read_app_config_Ok].
    split; [eauto|]. split; [|split].
    + intros k v Hk Hv Ht.
      apply (proj1 (str_items_Ok_iff _) (ex_intro _ parts Hparts)).
      apply identity_items. eauto.
    + intros k Hk. apply list_elem_of_In, (elem_of_list_to_set (C := gset string)).
      rewrite <- Hdom, dom_deepmerge. by apply elem_of_union_l.
    + intros k Hk.
      rewrite dom_deepmerge, app_computed_dom, AppConfig_fields_set in Hdom.
      assert (Hk' : k ∈ dom kwargs ∪ ({[ "debug"; "model"; "project"; "pipeline"; "branch";
                      "feature_engineering_jar"; "environment"; "fqn" ]} : gset string)).
      { rewrite Hdom. apply elem_of_union_l.
        destruct Hk as [<-|[<-|[<-|[]]]]; set_solver. }
      apply elem_of_union in Hk' as [|Hk']; [done|]. exfalso.
      set_unfold. destruct Hk as [<-|[<-|[<-|[]]]]; intuition discriminate.
  - intros ([raw Hraw] & Hstr & Hsub & Hreq). by eapply read_app_config_succeeds.
Qed.

(** X3.  The exception [read_app_config] raises is decided by the
    [environment] keyword. *)
Theorem read_app_config_errors (kwargs : gmap string value) (e : exn) :
  read_app_config kwargs = Raise e ->
  match kwargs !! "environment" with
  | None => e = KeyError
  | Some (VStr _) => e = TypeError
  | Some _ => e = AttributeError
  end.
Proof.
  unfold read_app_config. cbn [getitem].
  destruct (kwargs !! "environment") as [v|]; cbn [bind]; [|by intros [= <-]].
  destruct v as [| | | |raw| | |]; cbn [split_last bind]; try (by intros [= <-]).
  destruct (str_items _) as [parts|e'] eqn:Hparts; cbn [bind].
  - cbn [merge merge_source bind]. unfold AppConfig_new, new_record.
    case_bool_decide; cbn; [discriminate|]. by intros [= <-].
  - intros [= <-]. by eapply str_items_raises.
Qed.

(** X4.  The [environment] field is what follows the last ['/'] of the value
    passed, and has no ['/'] itself. *)
Theorem environment_is_last_segment (kwargs : gmap string value) (a : AppConfig) :
  read_app_config kwargs = Ok a ->
  exists raw env,
    kwargs !! "environment" = Some (VStr raw) /\
    environment a = VStr env /\
    contains "/" env = false /\
    (raw = env \/ exists p, raw = p ++ "/" ++ env).
Proof.
  intros (raw & parts & Hraw & Hparts & (Hdom & ->)%AppConfig_new_inv)%read_app_config_Ok.
  exists raw, (last_item (split "/" raw)). split; [done|]. split.
  - cbn [environment]. apply lookup_total_correct, deepmerge_wins; [|done].
    unfold app_computed. by map_lookup.
  - apply last_segment_spec.
Qed.

(** ** Replacing fields of a record *)

Lemma config_attribute_Some (nt kwargs r : gmap string value) :
  config_attribute nt kwargs = Some r <-> dom kwargs ⊆ dom nt /\ r = kwargs ∪ nt.
Proof.
  unfold config_attribute. case_bool_decide; split; try done.
  - intros [= <-]. done.
  - intros [_ ->]. done.
  - by intros [].
Qed.

(** X5.  [config_attribute] gives the named fields their new values as they
    are, keeps the others and the set of fields, so that the result is again
    accepted by the record's constructor; a keyword that is no field is
    refused; and two replacements in a row are one replacement. *)
Theorem config_attribute_replaces (fields : list string) (nt kwargs : gmap string value) :
  dom nt = list_to_set fields ->
  (forall r, config_attribute nt kwargs = Some r ->
     new_record fields r = Ok r /\
     (forall k v, kwargs !! k = Some v -> r !! k = Some v) /\
     (forall k, kwargs !! k = None -> r !! k = nt !! k) /\
     (forall more, config_attribute r more = config_attribute nt (more ∪ kwargs))) /\
  (forall k, k ∈ dom kwargs -> k ∉ fields -> config_attribute nt kwargs = None) /\
  ((forall k, k ∈ dom kwargs -> k ∈ fields) -> is_Some (config_attribute nt kwargs)).
Proof.
  intros Hdom. split; [|split].
  - intros r [Hsub ->]%config_attribute_Some.
    assert (Hr : dom (kwargs ∪ nt) = dom nt) by (rewrite dom_union_L; set_solver).
    split; [|split; [|split]].
    + unfold new_record. rewrite bool_decide_eq_true_2; [done|]. by rewrite Hr.
    + intros k v Hk. by apply lookup_union_Some_l.
    + intros k Hk. by apply lookup_union_r.
    + intros more. unfold config_attribute. rewrite Hr, dom_union_L.
      destruct (decide (dom more ⊆ dom nt)) as [Hm|Hm].
      * rewrite !bool_decide_eq_true_2 by set_solver. by rewrite (assoc_L (∪)).
      * rewrite !bool_decide_eq_false_2 by set_solver. done.
  - intros k Hk Hnot. unfold config_attribute. rewrite bool_decide_eq_false_2; [done|].
    intros Hsub. apply Hnot. apply (elem_of_list_to_set (C := gset string)).
    rewrite <- Hdom. by apply Hsub.
  - intros Hsub. unfold config_attribute. rewrite bool_decide_eq_true_2; [done|].
    intros k Hk. rewrite Hdom. apply elem_of_list_to_set. by apply Hsub.
Qed.

(** ** The chain of loaders *)




Lemma absent_field (fields : list string) (m : gmap string value) (k : string) :
  dom m = list_to_set fields -> k ∉ fields -> m !! k = None.
Proof.
  intros Hdom Hk. apply not_elem_of_dom. rewrite Hdom. by rewrite elem_of_list_to_set.
Qed.

Ltac not_a_field := rewrite list_elem_of_In; cbv; intuition discriminate.

Lemma is_a_field (fields : list string) (m : gmap string value) (k : string) :
  dom m = list_to_set fields -> In k fields -> is_Some (m !! k).
Proof.
  intros Hdom Hk. apply elem_of_dom. rewrite Hdom.
  by apply elem_of_list_to_set, list_elem_of_In.
Qed.

(** X7.  The fields a loader's own JSON document has to supply. *)
Theorem document_field_required (l p : loader) (h : host) (a : AppConfig)
    (spec : value) (k : string) :
  parent l = Some p ->
  In k (document_fields l) ->
  read_config h (own_document l h a) = Ok spec ->
  (forall items, source_items spec = Some items -> items !! k = None) ->
  raises (run l h a).
Proof.
  intros Hp Hk Hread Hno.
  destruct (raises_or_Ok (run l h a)) as [|[r Hr]]; [done|]. exfalso.
  pose proof (run_fields _ _ _ _ Hr) as Hdom.
  destruct l; cbn [parent] in Hp; try discriminate Hp; clear Hp;
    cbn [run record_fields own_document merged_files List.last document_fields] in *.
  - apply read_deployment_config_Ok in Hr as (tc & s & items & Htc & Hs & Hitems & -> & _).
    rewrite Hread in Hs. apply Ok_inj in Hs as <-.
    destruct Hk as [<-|[]].
    destruct (is_a_field _ _ "branches" Hdom) as [v Hv]; [cbv; tauto|].
    rewrite deepmerge_keeps in Hv by eauto.
    rewrite deepmerge_keeps in Hv by (unfold deployment_computed; by map_lookup).
    apply read_tenant_config_Ok in Htc as (? & ? & ? & _ & _ & _ & _ & Hd).
    rewrite (absent_field _ _ _ Hd) in Hv; [done|not_a_field].
  - apply read_project_config_Ok in Hr as (tc & s & items & Htc & Hs & Hitems & -> & _).
    rewrite Hread in Hs. apply Ok_inj in Hs as <-.
    destruct Hk as [<-|[]].
    destruct (is_a_field _ _ "project_name" Hdom) as [v Hv]; [cbv; tauto|].
    rewrite deepmerge_keeps in Hv by eauto.
    apply read_tenant_config_Ok in Htc as (? & ? & ? & _ & _ & _ & _ & Hd).
    rewrite (absent_field _ _ _ Hd) in Hv; [done|not_a_field].
  - apply read_model_config_Ok in Hr
      as (pc & s & code & bin & ver & Hpc & Hs & _ & _ & _ & -> & _).
    rewrite Hread in Hs. apply Ok_inj in Hs as ->.
    specialize (Hno s eq_refl).
    apply read_project_config_Ok in Hpc as (? & ? & ? & _ & _ & _ & _ & Hd).
    destruct (is_a_field _ _ k Hdom) as [v Hv].
    { destruct Hk as [<-|[<-|[<-|[<-|[<-|[]]]]]]; cbv; tauto. }
    rewrite deepmerge_keeps in Hv.
    + rewrite deepmerge_keeps in Hv by done.
      rewrite (absent_field _ _ _ Hd) in Hv; [done|].
      destruct Hk as [<-|[<-|[<-|[<-|[<-|[]]]]]]; not_a_field.
    + unfold model_computed. cbn [list_to_map foldr uncurry fst snd].
      destruct Hk as [<-|[<-|[<-|[<-|[<-|[]]]]]]; by map_lookup.
  - destruct Hk.
  - apply read_dataset_config_Ok in Hr
      as (pc & s & items & ms & mn & Hpc & Hs & Hitems & _ & _ & -> & _).
    rewrite Hread in Hs. apply Ok_inj in Hs as <-.
    destruct Hk as [<-|[]].
    destruct (is_a_field _ _ "datasets" Hdom) as [v Hv]; [cbv; tauto|].
    rewrite deepmerge_keeps in Hv by (unfold dataset_computed; by map_lookup).
    rewrite deepmerge_keeps in Hv by eauto.
    apply read_project_config_Ok in Hpc as (? & ? & ? & _ & _ & _ & _ & Hd).
    rewrite (absent_field _ _ _ Hd) in Hv; [done|not_a_field].
  - apply read_features_config_Ok in Hr as (mc & s & items & Hmc & Hs & Hitems & -> & _).
    rewrite Hread in Hs. apply Ok_inj in Hs as <-.
    destruct Hk as [<-|[]].
    destruct (is_a_field _ _ "features" Hdom) as [v Hv]; [cbv; tauto|].
    rewrite deepmerge_keeps in Hv by eauto.
    apply read_model_config_Ok in Hmc as (? & ? & ? & ? & ? & _ & _ & _ & _ & _ & _ & Hd).
    rewrite (absent_field _ _ _ Hd) in Hv; [done|not_a_field].
  - apply read_image_config_Ok in Hr as (tc & s & items & Htc & Hs & Hitems & -> & _).
    rewrite Hread in Hs. apply Ok_inj in Hs as <-.
    apply read_tenant_config_Ok in Htc as (? & ? & ? & _ & _ & _ & _ & Hd).
    destruct (is_a_field _ _ k Hdom) as [v Hv].
    { destruct Hk as [<-|[<-|[<-|[<-|[<-|[]]]]]]; cbv; tauto. }
    rewrite deepmerge_keeps in Hv by eauto.
    rewrite (absent_field _ _ _ Hd) in Hv; [done|].
    destruct Hk as [<-|[<-|[<-|[<-|[<-|[]]]]]]; not_a_field.
Qed.

(** ** The tenant record, continued *)

Lemma merge_source_items (d : gmap string value) (src : value) (items : gmap string value) :
  source_items src = Some items -> merge_source d src = Ok (deepmerge d items).
Proof.
  destruct src as [| | | |[|]|[|]|[|]|s]; cbn; intros Hs; try discriminate Hs;
    injection Hs as <-; by rewrite ?deepmerge_empty.
Qed.

Lemma tenant_fields_set (a : AppConfig) :
  (list_to_set TenantConfig_fields : gset string) =
  dom tenant_defaults ∪ dom (tenant_computed a) ∪ list_to_set (document_fields Tenant).
Proof.
  unfold tenant_defaults, tenant_computed, TenantConfig_fields.
  rewrite !dom_insert_L, !dom_singleton_L. cbn [document_fields list_to_set foldr].
  set_solver.
Qed.

(** X8.  When the tenant loader succeeds.  With the tenant document and the
    environment entry read, the loader succeeds exactly when their keys are
    fields of the record and every field that has neither a default nor a
    computed value is a key of one of them. *)
Theorem read_tenant_config_accepts (h : host) (a : AppConfig)
    (spec entry : gmap string value) (environment_spec : value) :
  read_config h (tenant_path h a) = Ok (VDict spec) ->
  get (dget spec "environments" (VDict ∅)) (environment a) (VDict ∅) = Ok environment_spec ->
  source_items environment_spec = Some entry ->
  ((exists r, read_tenant_config h a = Ok r) <->
   (forall k, k ∈ dom spec ∪ dom entry -> In k TenantConfig_fields) /\
   (forall k, In k (document_fields Tenant) -> k ∈ dom spec ∪ dom entry)).
Proof.
  intros Hread Hget Hitems. split.
  - intros [r (spec' & es & entry' & Hread' & Hget' & Hitems' & -> & Hdom)%read_tenant_config_Ok].
    rewrite Hread in Hread'. apply Ok_inj in Hread'. injection Hread' as <-.
    rewrite Hget in Hget'. apply Ok_inj in Hget' as <-.
    rewrite Hitems in Hitems'. injection Hitems' as <-.
    rewrite !dom_deepmerge in Hdom. split.
    + intros k Hk. apply list_elem_of_In, (elem_of_list_to_set (C := gset string)).
      rewrite <- Hdom. clear -Hk. set_solver.
    + intros k Hk.
      assert (Hin : k ∈ (list_to_set TenantConfig_fields : gset string)).
      { rewrite (tenant_fields_set a). apply elem_of_union_r.
        by apply elem_of_list_to_set, list_elem_of_In. }
      rewrite <- Hdom in Hin.
      assert (Hd : tenant_defaults !! k = None /\ tenant_computed a !! k = None).
      { unfold tenant_defaults, tenant_computed.
        cbn [document_fields In] in Hk. destruct_or?; subst; try done; split; by map_lookup. }
      destruct Hd as [Hd%not_elem_of_dom Hc%not_elem_of_dom]. clear -Hin Hd Hc. set_solver.
  - intros [Hsub Hreq]. unfold read_tenant_config. fold (tenant_path h a).
    rewrite Hread. cbn [bind get dict_get]. fold (dget spec "environments" (VDict ∅)).
    rewrite Hget. cbn [bind merge merge_source].
    rewrite (merge_source_items _ _ _ Hitems). cbn [bind]. unfold new_record.
    rewrite bool_decide_eq_true_2; [eauto|].
    rewrite !dom_deepmerge, (tenant_fields_set a). apply set_eq. intros k. split.
    + intros Hk.
      assert (Hk' : k ∈ dom tenant_defaults ∪ dom (tenant_computed a) ∨ k ∈ dom spec ∪ dom entry)
        by (clear -Hk; set_solver).
      destruct Hk' as [Hk'|Hk']; [by apply elem_of_union_l|].
      rewrite <- (tenant_fields_set a).
      by apply elem_of_list_to_set, list_elem_of_In, Hsub.
    + intros [Hk|Hk]%elem_of_union; [clear -Hk; set_solver|].
      apply elem_of_list_to_set, list_elem_of_In, Hreq in Hk. clear -Hk. set_solver.
Qed.

(** X9.  The tags of [tenant.json] are kept next to the three computed
    tags, which take the computed values; without a tags mapping in the
    document the field holds just the three. *)
Theorem tenant_tags_merged (h : host) (a : AppConfig)
    (spec entry r : gmap string value) (environment_spec : value) :
  read_config h (tenant_path h a) = Ok (VDict spec) ->
  get (dget spec "environments" (VDict ∅)) (environment a) (VDict ∅) = Ok environment_spec ->
  source_items environment_spec = Some entry ->
  entry !! "tags" = None ->
  read_tenant_config h a = Ok r ->
  (forall t, spec !! "tags" = Some (VDict t) ->
     exists tags, r !! "tags" = Some (VDict tags) /\
       dom tags = dom t ∪ {[ "Environment"; "BuildNumber"; "CommitSha" ]} /\
       (forall k v, tenant_tags a !! k = Some v -> is_mapping v = false ->
                    tags !! k = Some v) /\
       (forall k, tenant_tags a !! k = None -> tags !! k = t !! k)) /\
  ((forall t, spec !! "tags" <> Some (VDict t)) ->
     r !! "tags" = Some (VDict (tenant_tags a))).
Proof.
  intros Hread Hget Hitems Hno
    (spec' & es & entry' & Hread' & Hget' & Hitems' & -> & _)%read_tenant_config_Ok.
  rewrite Hread in Hread'. apply Ok_inj in Hread'. injection Hread' as <-.
  rewrite Hget in Hget'. apply Ok_inj in Hget' as <-.
  rewrite Hitems in Hitems'. injection Hitems' as <-.
  rewrite deepmerge_keeps by done. rewrite lookup_deepmerge.
  assert (Hc : tenant_computed a !! "tags" = Some (VDict (tenant_tags a)))
    by (unfold tenant_computed; by map_lookup).
  assert (Hd : tenant_defaults !! "tags" = None)
    by (unfold tenant_defaults; by map_lookup).
  rewrite Hc, lookup_deepmerge, Hd. split.
  - intros t Ht. rewrite Ht. cbn [merge_value]. fold (deepmerge t (tenant_tags a)).
    eexists. split; [done|]. split; [|split].
    + by rewrite dom_deepmerge, tenant_tags_keys.
    + intros k v Hk Hv. by apply deepmerge_wins.
    + intros k Hk. by apply deepmerge_keeps.
  - intros Hnot. destruct (spec !! "tags") as [[| | | | | | |t]|]; try done.
    by destruct (Hnot t).
Qed.

(** ** The deployment record *)

(** X10.  Unless [deployment.json] sets it, [feature_engineering_jar] is the
    one of the application record when that is truthy, and otherwise the
    assembly jar of the commit in the bucket of the tenant record. *)
Theorem deployment_jar_default (h : host) (a : AppConfig) (r : gmap string value) :
  read_deployment_config h a = Ok r ->
  exists tenant_config deployment_spec items,
    read_tenant_config h a = Ok tenant_config /\
    read_config h (py_str h (tenant a) ++ "/deployment.json") = Ok deployment_spec /\
    source_items deployment_spec = Some items /\
    (items !! "feature_engineering_jar" = None ->
       (truthy (feature_engineering_jar a) = true ->
          r !! "feature_engineering_jar" = Some (feature_engineering_jar a)) /\
       (truthy (feature_engineering_jar a) = false ->
          r !! "feature_engineering_jar" =
            Some (VStr ("s3://" ++ py_str h (tenant_config !!! "s3_bucket")
                        ++ "/artifacts/feature-engineering-assembly-"
                        ++ py_str h (commit_sha a) ++ ".jar")))) /\
    (items !! "branch" = None -> r !! "branch" = Some (branch a)).
Proof.
  intros (tc & spec & items & Htc & Hread & Hitems & -> & _)%read_deployment_config_Ok.
  exists tc, spec, items. do 3 (split; [done|]).
  apply read_tenant_config_Ok in Htc as (? & ? & ? & _ & _ & _ & _ & Hd).
  split.
  - intros Hno. rewrite deepmerge_keeps by done. rewrite lookup_deepmerge.
    rewrite (absent_field _ _ "feature_engineering_jar" Hd) by not_a_field.
    unfold deployment_computed, por. map_lookup.
    split; intros ->; done.
  - intros Hno. rewrite deepmerge_keeps by done. rewrite lookup_deepmerge.
    rewrite (absent_field _ _ "branch" Hd) by not_a_field.
    unfold deployment_computed. by map_lookup.
Qed.

(** ** The model record, continued *)

Lemma model_computed_dirs (h : host) (a : AppConfig)
    (pc spec : gmap string value) (bin code sha : string) :
  let c := model_computed h a pc spec bin code sha in
  c !! "model_binary" = Some (dget spec "model_binary" VNone) /\
  c !! "model_base_dir" = Some (VStr (model_base_dir h a)) /\
  c !! "model_source_dir" =
    Some (VStr (model_base_dir h a ++ "/"
                ++ py_str h (dget spec "model_source_dir" (VStr "model")))) /\
  c !! "model_binaries_dir" =
    Some (VStr (model_base_dir h a ++ "/"
                ++ py_str h (dget spec "model_binaries_dir" (VStr "model")))).
Proof.
  unfold model_computed. cbn [list_to_map foldr uncurry fst snd].
  repeat split; by map_lookup.
Qed.

(** X11.  The source hash of a model record is the hash of the directory the
    record names as [model_source_dir], which is [model] under the model's
    base directory unless [model.json] names another. *)
Theorem model_source_hash_coherent (h : host) (a : AppConfig) (r : gmap string value) :
  read_model_config h a = Ok r ->
  exists spec dir code,
    read_config h (model_base_dir h a ++ "/model.json") = Ok (VDict spec) /\
    r !! "model_base_dir" = Some (VStr (model_base_dir h a)) /\
    r !! "model_source_dir" = Some (VStr dir) /\
    model_code_hash h dir = Ok code /\
    r !! "model_code_sha" = Some (VStr code) /\
    (spec !! "model_source_dir" = None -> dir = model_base_dir h a ++ "/" ++ "model") /\
    (forall s, spec !! "model_source_dir" = Some (VStr s) ->
               dir = model_base_dir h a ++ "/" ++ s).
Proof.
  intros (pc & spec & code & bin & v & Hpc & Hread & Hcode & Hbin & Hv & -> & _)%read_model_config_Ok.
  destruct (model_computed_dirs h a pc spec bin code (model_fingerprint h bin code v))
    as (_ & Hbase & Hsrc & _).
  destruct (model_computed_lookup h a pc spec bin code (model_fingerprint h bin code v))
    as (_ & _ & Hc & _).
  exists spec, (model_base_dir h a ++ "/"
                ++ py_str h (dget spec "model_source_dir" (VStr "model"))), code.
  split; [done|]. do 2 (split; [by apply deepmerge_wins|]).
  split; [done|]. split; [by apply deepmerge_wins|]. split.
  - intros Hno. unfold dget. rewrite Hno. cbn [default from_option id].
    by rewrite py_str_str.
  - intros s Hs. unfold dget. rewrite Hs. cbn [default from_option id].
    by rewrite py_str_str.
Qed.

(** X12.  The binary hash.  The [model_binary] of the record is the one
    declared in [model.json], [None] when there is none.  When it is falsy
    the binary hash is the SHA-1 of the empty input; otherwise it is the
    SHA-1 of the file of that name in the record's [model_binaries_dir],
    and the loader raises when that is no regular file. *)
Theorem model_binary_hash_cases (h : host) (a : AppConfig) :
  (forall r, read_model_config h a = Ok r ->
     exists spec dir,
       read_config h (model_base_dir h a ++ "/model.json") = Ok (VDict spec) /\
       r !! "model_binary" = Some (dget spec "model_binary" VNone) /\
       r !! "model_binaries_dir" = Some (VStr dir) /\
       (truthy (dget spec "model_binary" VNone) = false ->
          r !! "model_binary_sha"
            = Some (VStr "da39a3ee5e6b4b0d3255bfef95601890afd80709")) /\
       (truthy (dget spec "model_binary" VNone) = true ->
          exists content,
            files h (dir ++ "/" ++ py_str h (dget spec "model_binary" VNone))
              = Some (File content) /\
            r !! "model_binary_sha" = Some (VStr (Sha1.hexdigest content)))) /\
  (forall spec,
     read_config h (model_base_dir h a ++ "/model.json") = Ok (VDict spec) ->
     truthy (dget spec "model_binary" VNone) = true ->
     file_content h ((model_base_dir h a ++ "/"
                      ++ py_str h (dget spec "model_binaries_dir" (VStr "model")))
                     ++ "/" ++ py_str h (dget spec "model_binary" VNone)) = None ->
     raises (read_model_config h a)).
Proof.
  split.
  - intros r (pc & spec & code & bin & v & Hpc & Hread & Hcode & Hbin & Hv & -> & _)%read_model_config_Ok.
    destruct (model_computed_dirs h a pc spec bin code (model_fingerprint h bin code v))
      as (Hmb & _ & _ & Hdir).
    destruct (model_computed_lookup h a pc spec bin code (model_fingerprint h bin code v))
      as (_ & Hb & _).
    exists spec, (model_base_dir h a ++ "/"
                  ++ py_str h (dget spec "model_binaries_dir" (VStr "model"))).
    split; [done|]. split; [|split; [by apply deepmerge_wins|]].
    + rewrite lookup_deepmerge, Hmb, lookup_deepmerge.
      apply read_project_config_Ok in Hpc as (? & ? & ? & _ & _ & _ & _ & Hd).
      rewrite (absent_field _ _ "model_binary" Hd) by not_a_field.
      unfold dget. destruct (spec !! "model_binary") as [mb|]; cbn [default from_option id];
        [|done]. by rewrite merge_value_idem.
    + unfold binary_sha in Hbin. split.
      * intros Hf. rewrite Hf in Hbin. apply Ok_inj in Hbin as <-.
        rewrite <- sha1_empty. by apply deepmerge_wins.
      * intros Ht. rewrite Ht in Hbin. apply bind_Ok in Hbin as (mf & Hmf & Hbin).
        apply getitem_Ok in Hmf as (d & [= <-] & Hm).
        unfold model_binary_hash, read_bytes in Hbin.
        assert (Hd' : dget spec "model_binary" VNone = mf)
          by (unfold dget; by rewrite Hm).
        rewrite Hd'.
        destruct (files h _) as [[content|]|] eqn:Hf; try discriminate Hbin.
        cbn [bind] in Hbin. apply Ok_inj in Hbin as <-.
        exists content. split; [done|]. by apply deepmerge_wins.
  - intros spec Hread Ht Hfile. unfold read_model_config.
    apply raises_bind_r. intros pc _. rewrite Hread. cbn [bind].
    apply raises_bind_r. intros code _. apply raises_bind_l.
    unfold binary_sha. rewrite Ht.
    assert (Hm : exists x, spec !! "model_binary" = Some x
                           /\ dget spec "model_binary" VNone = x).
    { unfold dget in *. destruct (spec !! "model_binary") as [x|]; [eauto|discriminate Ht]. }
    destruct Hm as (x & Hx & Hd). rewrite Hd in Hfile.
    cbn [getitem]. rewrite Hx. cbn [bind]. unfold model_binary_hash, read_bytes.
    unfold file_content in Hfile.
    destruct (files h _) as [[content|]|]; try discriminate Hfile; apply raises_Raise.
Qed.

(** ** Content hashing, continued *)

Lemma regular_files_none (h : host) (dir : string) (names : list string) :
  (forall fn, In fn names -> file_content h (path_join dir fn) = None) ->
  regular_files h dir names = [].
Proof.
  induction names as [|fn names IH]; intros H; [done|].
  rewrite regular_files_cons, (H fn) by (by left).
  apply IH. intros fn' Hin. apply H. by right.
Qed.

(** X13.  A source directory without regular files, empty or holding only
    subdirectories, has the hash of a missing one; a source path that is a
    regular file makes the hash, and with it the model loader, raise. *)
Theorem model_code_hash_edges (h : host) (dir : string) :
  (forall names,
     files h dir = Some (Dir names) ->
     (forall fn, In fn names -> file_content h (path_join dir fn) = None) ->
     model_code_hash h dir = Ok "da39a3ee5e6b4b0d3255bfef95601890afd80709") /\
  (forall content,
     files h dir = Some (File content) -> model_code_hash h dir = Raise OSError) /\
  (forall a spec content,
     read_config h (model_base_dir h a ++ "/model.json") = Ok (VDict spec) ->
     dir = model_base_dir h a ++ "/"
           ++ py_str h (dget spec "model_source_dir" (VStr "model")) ->
     files h dir = Some (File content) ->
     raises (read_model_config h a)).
Proof.
  split; [|split].
  - intros names Hd Hnone. unfold model_code_hash. rewrite Hd, hash_files_bytes.
    rewrite regular_files_none.
    + exact (f_equal Ok sha1_empty).
    + intros fn Hin. apply Hnone. by apply (Permutation_in fn (sort_perm names)).
  - intros content Hd. unfold model_code_hash. by rewrite Hd.
  - intros a spec content Hread -> Hd. unfold read_model_config.
    apply raises_bind_r. intros pc _. rewrite Hread. cbn [bind].
    apply raises_bind_l. unfold model_code_hash. rewrite Hd. apply raises_Raise.
Qed.

(** ** The pipeline record *)

(** X14.  The three names of a pipeline record are one and the same string,
    the hyphenated identity, and its module name and location follow the
    identity fields; [pipeline.json] cannot set any of them. *)
Theorem pipeline_names (h : host) (a : AppConfig) (r : gmap string value) :
  read_pipeline_config h a = Ok r ->
  let t := py_str h (tenant a) in
  let p := py_str h (project a) in
  let m := py_str h (model a) in
  let pl := py_str h (pipeline a) in
  let name := replace "_" "-" (t ++ "-" ++ p ++ "-" ++ m ++ "-" ++ pl ++ "-"
                               ++ py_str h (environment a)) in
  r !! "pipeline_name" = Some (VStr name) /\
  r !! "pipeline_name_prefix" = Some (VStr name) /\
  r !! "rule_name" = Some (VStr name) /\
  r !! "base_path" = Some (VStr (t ++ "/" ++ p ++ "/" ++ m)) /\
  r !! "pipeline_module_name" = Some (VStr (t ++ "." ++ p ++ "." ++ m ++ "." ++ pl)) /\
  r !! "pipeline_module_location"
    = Some (VStr ("./" ++ (t ++ "/" ++ p ++ "/" ++ m) ++ "/pipelines/" ++ pl ++ ".py")) /\
  r !! "registered_model" = Some VNone.
Proof.
  intros (pc & spec & sch & ps & _ & _ & _ & _ & -> & _)%read_pipeline_config_Ok.
  cbv zeta. repeat apply conj;
    (apply deepmerge_wins; [|done]); unfold pipeline_computed, model_base_dir;
    cbv zeta; by map_lookup.
Qed.

(** X15.  The schedule of a pipeline record.  Without an entry for the
    pipeline in [pipeline_schedule] the field is [None]; an entry that is
    not a mapping is the field; an entry that is a mapping is merged into
    the whole [pipeline_schedule] mapping of the document, so that the
    field also holds the entries of the other pipelines. *)
Theorem pipeline_schedule_cases (h : host) (a : AppConfig)
    (r spec schedules : gmap string value) (name : string) :
  read_config h (model_base_dir h a ++ "/pipeline.json") = Ok (VDict spec) ->
  spec !! "pipeline_schedule" = Some (VDict schedules) ->
  pipeline a = VStr name ->
  read_pipeline_config h a = Ok r ->
  (schedules !! name = None -> r !! "pipeline_schedule" = Some VNone) /\
  (forall v, schedules !! name = Some v -> is_mapping v = false ->
             r !! "pipeline_schedule" = Some v) /\
  (forall entry, schedules !! name = Some (VDict entry) ->
     r !! "pipeline_schedule" = Some (VDict (deepmerge schedules entry)) /\
     forall other, other ∈ dom schedules ->
                   other ∈ dom (deepmerge schedules entry)).
Proof.
  intros Hread Hs Hp
    (pc & spec' & sch & ps & Hpc & Hread' & Hs' & Hget & -> & _)%read_pipeline_config_Ok.
  rewrite Hread in Hread'. apply Ok_inj in Hread'. injection Hread' as <-.
  rewrite Hs in Hs'. injection Hs' as <-.
  rewrite Hp in Hget. cbn [get dict_get] in Hget. apply Ok_inj in Hget as <-.
  assert (Hc : forall x, pipeline_computed h a pc x !! "pipeline_schedule" = Some x).
  { intros x. unfold pipeline_computed. cbv zeta. by map_lookup. }
  split; [|split].
  - intros Hn. rewrite Hn. by apply deepmerge_wins.
  - intros v Hv Hm. rewrite Hv. by apply deepmerge_wins.
  - intros entry He. rewrite He. cbn [default from_option id]. split.
    + rewrite lookup_deepmerge, Hc, lookup_deepmerge, Hs.
      apply read_project_config_Ok in Hpc as (? & ? & ? & _ & _ & _ & _ & Hd).
      rewrite (absent_field _ _ "pipeline_schedule" Hd) by not_a_field.
      done.
    + intros other Ho. by apply dom_deepmerge_l.
Qed.

(** ** Across loaders *)

(** X16.  The model loader and the pipeline loader of one application give
    the same [base_s3_path]. *)
Theorem model_pipeline_same_s3_path (h : host) (a : AppConfig)
    (rm rp : gmap string value) :
  read_model_config h a = Ok rm -> read_pipeline_config h a = Ok rp ->
  rm !! "base_s3_path" = rp !! "base_s3_path" /\
  exists s, rm !! "base_s3_path" = Some (VStr s).
Proof.
  intros (pc & spec & code & bin & v & Hpc & _ & _ & _ & _ & -> & _)%read_model_config_Ok
         (pc' & spec' & sch & ps & Hpc' & _ & _ & _ & -> & _)%read_pipeline_config_Ok.
  rewrite Hpc in Hpc'. apply Ok_inj in Hpc' as <-.
  destruct (model_computed_lookup h a pc spec bin code (model_fingerprint h bin code v))
    as (_ & _ & _ & _ & Hs3).
  rewrite (deepmerge_wins _ _ _ _ Hs3 eq_refl).
  split; [|eauto]. symmetry. apply deepmerge_wins; [|done].
  unfold pipeline_computed. cbv zeta. by map_lookup.
Qed.

(** ** The application record, once more *)

(** The record [read_app_config] returns, field by field. *)
Lemma read_app_config_record (kwargs : gmap string value) (a : AppConfig) :
  read_app_config kwargs = Ok a ->
  exists raw,
    kwargs !! "environment" = Some (VStr raw) /\
    a = {| branch := kwargs_get kwargs "branch";
           build_number := kwargs_get kwargs "build_number";
           commit_sha := kwargs_get kwargs "commit_sha";
           environment := VStr (last_item (split "/" raw));
           feature_engineering_jar := kwargs_get kwargs "feature_engineering_jar";
           fqn := VStr (join "-" (nonempty_values kwargs fqn_keys));
           model := kwargs_get kwargs "model";
           pipeline := kwargs_get kwargs "pipeline";
           project := kwargs_get kwargs "project";
           tenant := kwargs_get kwargs "tenant";
           debug := dget kwargs "debug" (VBool false) |}.
Proof.
  intros (raw & parts & Hraw & Hparts & (Hdom & ->)%AppConfig_new_inv)%read_app_config_Ok.
  apply str_items_nonempty in Hparts as ->.
  exists raw. split; [done|].
  set (c := app_computed kwargs (last_item (split "/" raw))
              (join "-" (nonempty_values kwargs fqn_keys))).
  assert (Hkeep : forall k, c !! k = None -> deepmerge kwargs c !!! k = kwargs_get kwargs k)
    by (intros k; apply lookup_total_deepmerge_keeps).
  assert (Hdef : forall k d, c !! k = Some (dget kwargs k d) ->
                             deepmerge kwargs c !!! k = dget kwargs k d)
    by (intros k d; apply lookup_total_deepmerge_default).
  rewrite (Hkeep "build_number"), (Hkeep "commit_sha"), (Hkeep "tenant")
    by (unfold c, app_computed; by map_lookup).
  rewrite (Hdef "branch" VNone), (Hdef "feature_engineering_jar" VNone),
    (Hdef "model" VNone), (Hdef "pipeline" VNone), (Hdef "project" VNone),
    (Hdef "debug" (VBool false)) by (unfold c, app_computed; by map_lookup).
  rewrite (lookup_total_correct _ "environment" (VStr (last_item (split "/" raw)))),
    (lookup_total_correct _ "fqn" (VStr (join "-" (nonempty_values kwargs fqn_keys))))
    by (apply deepmerge_wins; [|done]; unfold c, app_computed; by map_lookup).
  done.
Qed.

Lemma AppConfig_dict_lookup (a : AppConfig) :
  let d := AppConfig_dict a in
  d !! "branch" = Some (branch a) /\ d !! "build_number" = Some (build_number a) /\
  d !! "commit_sha" = Some (commit_sha a) /\ d !! "environment" = Some (environment a) /\
  d !! "feature_engineering_jar" = Some (feature_engineering_jar a) /\
  d !! "fqn" = Some (fqn a) /\ d !! "model" = Some (model a) /\
  d !! "pipeline" = Some (pipeline a) /\ d !! "project" = Some (project a) /\
  d !! "tenant" = Some (tenant a) /\ d !! "debug" = Some (debug a).
Proof.
  unfold AppConfig_dict. cbn [list_to_map foldr uncurry fst snd].
  repeat split; by map_lookup.
Qed.

Lemma AppConfig_dict_dom (a : AppConfig) :
  dom (AppConfig_dict a) = list_to_set AppConfig_fields.
Proof.
  unfold AppConfig_dict, AppConfig_fields. cbn [list_to_map foldr uncurry fst snd list_to_set].
  rewrite !dom_insert_L, dom_empty_L. done.
Qed.

(** X17.  [config_dict] and the constructor are inverse on an application
    record, and running [read_app_config] on the fields of a record it
    returned succeeds and changes nothing but [fqn], rebuilt with the
    normalised environment; nothing at all when the environment passed
    had no ['/']. *)
Theorem read_app_config_again (kwargs : gmap string value) (a : AppConfig) :
  read_app_config kwargs = Ok a ->
  AppConfig_new (AppConfig_dict a) = Ok a /\
  (exists a',
     read_app_config (AppConfig_dict a) = Ok a' /\
     AppConfig_dict a' = <[ "fqn" := fqn a' ]> (AppConfig_dict a) /\
     fqn a' = VStr (join "-" (nonempty_values (AppConfig_dict a) fqn_keys))) /\
  (forall raw, kwargs !! "environment" = Some (VStr raw) -> contains "/" raw = false ->
     read_app_config (AppConfig_dict a) = Ok a).
Proof.
  intros Ha.
  destruct (AppConfig_dict_lookup a)
    as (Hbr & Hbn & Hcs & Hen & Hfe & Hfq & Hmo & Hpi & Hpr & Hte & Hde).
  assert (Hnew : AppConfig_new (AppConfig_dict a) = Ok a).
  { unfold AppConfig_new, new_record.
    rewrite bool_decide_eq_true_2 by apply AppConfig_dict_dom. cbn [bind].
    rewrite !lookup_total_alt, Hbr, Hbn, Hcs, Hen, Hfe, Hfq, Hmo, Hpi, Hpr, Hte, Hde.
    by destruct a. }
  split; [done|].
  pose proof Ha as (raw & parts & Hraw & Hparts & _)%read_app_config_Ok.
  pose proof Ha as (raw' & Hraw' & Hrec)%read_app_config_record.
  rewrite Hraw in Hraw'. injection Hraw' as <-.
  assert (Henv : environment a = VStr (last_item (split "/" raw))) by (by rewrite Hrec).
  destruct (last_segment_spec "/" raw) as [Hno _].
  assert (Hagain : exists a', read_app_config (AppConfig_dict a) = Ok a').
  { apply (read_app_config_succeeds _ (last_item (split "/" raw))).
    - by rewrite Hen, Henv.
    - intros k v Hk Hv Ht.
      destruct Hk as [<-|[<-|[<-|[<-|[<-|[]]]]]].
      + rewrite Hte in Hv. injection Hv as <-.
        apply (proj1 (str_items_Ok_iff _) (ex_intro _ parts Hparts)), identity_items.
        exists "tenant". split; [cbv; tauto|]. split; [|done].
        rewrite Hrec in Ht |- *. cbn [tenant] in *. unfold kwargs_get, dget in *.
        destruct (kwargs !! "tenant"); [done|discriminate Ht].
      + rewrite Hpr in Hv. injection Hv as <-.
        apply (proj1 (str_items_Ok_iff _) (ex_intro _ parts Hparts)), identity_items.
        exists "project". split; [cbv; tauto|]. split; [|done].
        rewrite Hrec in Ht |- *. cbn [project] in *. unfold kwargs_get, dget in *.
        destruct (kwargs !! "project"); [done|discriminate Ht].
      + rewrite Hmo in Hv. injection Hv as <-.
        apply (proj1 (str_items_Ok_iff _) (ex_intro _ parts Hparts)), identity_items.
        exists "model". split; [cbv; tauto|]. split; [|done].
        rewrite Hrec in Ht |- *. cbn [model] in *. unfold kwargs_get, dget in *.
        destruct (kwargs !! "model"); [done|discriminate Ht].
      + rewrite Hpi in Hv. injection Hv as <-.
        apply (proj1 (str_items_Ok_iff _) (ex_intro _ parts Hparts)), identity_items.
        exists "pipeline". split; [cbv; tauto|]. split; [|done].
        rewrite Hrec in Ht |- *. cbn [pipeline] in *. unfold kwargs_get, dget in *.
        destruct (kwargs !! "pipeline"); [done|discriminate Ht].
      + rewrite Hen, Henv in Hv. injection Hv as <-. eauto.
    - intros k Hk. rewrite AppConfig_dict_dom in Hk.
      by apply elem_of_list_to_set, list_elem_of_In in Hk.
    - intros k Hk. rewrite AppConfig_dict_dom.
      apply elem_of_list_to_set, list_elem_of_In.
      destruct Hk as [<-|[<-|[<-|[]]]]; cbv; tauto. }
  destruct Hagain as [a' Ha'].
  pose proof Ha' as (raw2 & Hraw2 & Hrec')%read_app_config_record.
  rewrite Hen, Henv in Hraw2. injection Hraw2 as <-.
  rewrite (last_segment_without _ Hno) in Hrec'.
  unfold kwargs_get, dget in Hrec'.
  rewrite Hbr, Hbn, Hcs, Hfe, Hmo, Hpi, Hpr, Hte, Hde in Hrec'.
  cbn [default from_option id] in Hrec'.
  split.
  - exists a'. split; [done|]. split; [|by rewrite Hrec'].
    rewrite Hrec'. unfold AppConfig_dict. cbn [list_to_map foldr uncurry fst snd].
    cbn [branch build_number commit_sha environment feature_engineering_jar fqn model
         pipeline project tenant debug].
    rewrite Henv. apply map_eq. intros k.
    repeat (rewrite lookup_insert; case_decide; [done|]). done.
  - intros raw3 Hraw3 Hslash. rewrite Hraw in Hraw3. injection Hraw3 as <-.
    rewrite Ha'. f_equal. rewrite Hrec'.
    rewrite (last_segment_without _ Hslash) in Henv, Hrec.
    assert (Hf : nonempty_values (AppConfig_dict a) fqn_keys
                 = nonempty_values kwargs fqn_keys).
    { unfold nonempty_values, fqn_keys. cbn [omap list_omap].
      rewrite Hte, Hpr, Hmo, Hpi, Hen, Henv, Hraw.
      rewrite Hrec. cbn [tenant project model pipeline]. unfold kwargs_get, dget.
      destruct (kwargs !! "tenant"), (kwargs !! "project"), (kwargs !! "model"),
        (kwargs !! "pipeline"); done. }
    rewrite Hf, (last_segment_without _ Hslash). clear -Hrec. subst a. reflexivity.
Qed.

(** ** Further instances on the concrete host *)

(** The keyword arguments of the example are accepted, so the three
    required ones are among them. *)
Lemma read_app_config_accepts_witness :
  exists a,
    read_app_config (Acme.kwargs "prod") = Ok a /\
    forall k, In k [ "tenant"; "build_number"; "commit_sha" ] ->
              k ∈ dom (Acme.kwargs "prod").
Proof.
  set (kwargs := Acme.kwargs "prod").
  set (a := the (Acme.app "") (read_app_config kwargs)).
  assert (Ha : read_app_config kwargs = Ok a) by evaluate.
  exists a. split; [exact Ha|].
  exact (proj2 (proj2 (proj2 (proj1 (read_app_config_accepts kwargs) (ex_intro _ a Ha))))).
Defined.

(** An environment that is a number: [AttributeError]. *)
Lemma read_app_config_errors_witness :
  read_app_config {[ "environment" := VInt 3 ]} = Raise AttributeError /\
  forall e, read_app_config {[ "environment" := VInt 3 ]} = Raise e -> e = AttributeError.
Proof.
  split; [evaluate|]. intros e He.
  exact (read_app_config_errors {[ "environment" := VInt 3 ]} e He).
Defined.

(** The environment [release/prod]. *)
Lemma environment_is_last_segment_witness :
  exists a raw env,
    read_app_config (Acme.kwargs "release/prod") = Ok a /\
    Acme.kwargs "release/prod" !! "environment" = Some (VStr raw) /\
    environment a = VStr env /\ contains "/" env = false /\
    (raw = env \/ exists p, raw = p ++ "/" ++ env).
Proof.
  set (kwargs := Acme.kwargs "release/prod").
  set (a := the (Acme.app "") (read_app_config kwargs)).
  assert (Ha : read_app_config kwargs = Ok a) by evaluate.
  destruct (environment_is_last_segment kwargs a Ha) as (raw & env & H).
  exists a, raw, env. split; [exact Ha|exact H].
Defined.

(** The example passes neither [debug] nor [feature_engineering_jar]. *)
Lemma app_fields_as_passed_witness :
  exists a,
    read_app_config (Acme.kwargs "prod") = Ok a /\
    debug a = VBool false /\ feature_engineering_jar a = VNone /\
    model a = VStr "churn_v1".
Proof.
  set (kwargs := Acme.kwargs "prod").
  set (a := the (Acme.app "") (read_app_config kwargs)).
  assert (Ha : read_app_config kwargs = Ok a) by evaluate.
  destruct (app_fields_as_passed kwargs a Ha) as (_ & Hm & _ & _ & _ & Hj & Hd).
  exists a. split; [exact Ha|]. rewrite Hd, Hj, Hm. repeat apply conj; evaluate.
Defined.

(** The record of the example, read again from its own fields. *)
Lemma read_app_config_again_witness :
  exists a,
    read_app_config (Acme.kwargs "prod") = Ok a /\
    read_app_config (AppConfig_dict a) = Ok a.
Proof.
  set (kwargs := Acme.kwargs "prod").
  set (a := the (Acme.app "") (read_app_config kwargs)).
  assert (Ha : read_app_config kwargs = Ok a) by evaluate.
  exists a. split; [exact Ha|].
  refine (proj2 (proj2 (read_app_config_again kwargs a Ha)) "prod" _ _); evaluate.
Defined.

(** The tenant record of the example with another bucket. *)
Lemma config_attribute_replaces_witness :
  exists nt r,
    read_tenant_config Acme.host (Acme.app "prod") = Ok nt /\
    config_attribute nt {[ "s3_bucket" := VStr "scratch" ]} = Some r /\
    new_record TenantConfig_fields r = Ok r /\
    r !! "s3_bucket" = Some (VStr "scratch") /\
    r !! "aws_region" = nt !! "aws_region".
Proof.
  set (nt := the ∅ (read_tenant_config Acme.host (Acme.app "prod"))).
  assert (Hnt : read_tenant_config Acme.host (Acme.app "prod") = Ok nt) by evaluate.
  pose proof (run_fields Tenant _ _ _ Hnt) as Hdom. cbn [record_fields] in Hdom.
  destruct (config_attribute_replaces TenantConfig_fields nt
              {[ "s3_bucket" := VStr "scratch" ]} Hdom) as (Hrep & _ & Hsome).
  destruct Hsome as [r Hr].
  { intros k Hk. apply elem_of_dom in Hk as [v Hv].
    apply lookup_singleton_Some in Hv as [<- _]. apply list_elem_of_In. cbv. tauto. }
  destruct (Hrep r Hr) as (Hnew & Hset & Hkeep & _).
  exists nt, r. split; [exact Hnt|]. split; [exact Hr|]. split; [exact Hnew|]. split.
  - apply Hset. apply lookup_singleton_eq.
  - apply Hkeep. by apply lookup_singleton_ne.
Defined.


(** A [deployment.json] that is an empty object has no [branches]. *)
Lemma document_field_required_witness :
  read_config (with_file Acme.host "acme/deployment.json" (Some (File "{}")))
    "acme/deployment.json" = Ok (VDict ∅) /\
  raises (run Deployment (with_file Acme.host "acme/deployment.json" (Some (File "{}")))
            (Acme.app "prod")).
Proof.
  set (h := with_file Acme.host "acme/deployment.json" (Some (File "{}"))).
  assert (Hread : read_config h (own_document Deployment h (Acme.app "prod")) = Ok (VDict ∅))
    by evaluate.
  split; [exact Hread|].
  refine (document_field_required Deployment Tenant h (Acme.app "prod") (VDict ∅) "branches"
            eq_refl _ Hread _).
  - by left.
  - intros items [= <-]. apply lookup_empty.
Defined.

(** The tenant document and the [prod] entry of the example. *)
Lemma read_tenant_config_accepts_witness :
  (exists r, read_tenant_config Acme.host (Acme.app "prod") = Ok r) /\
  forall k, In k (document_fields Tenant) ->
            k ∈ dom Acme.tenant_spec ∪ dom Acme.prod_entry.
Proof.
  set (h := Acme.host). set (a := Acme.app "prod").
  assert (H1 : read_config h (tenant_path h a) = Ok (VDict Acme.tenant_spec)) by evaluate.
  assert (H2 : get (dget Acme.tenant_spec "environments" (VDict ∅)) (environment a) (VDict ∅)
               = Ok (VDict Acme.prod_entry)) by evaluate.
  assert (Hr : exists r, read_tenant_config h a = Ok r).
  { exists (the ∅ (read_tenant_config h a)). evaluate. }
  split; [exact Hr|].
  exact (proj2 (proj1 (read_tenant_config_accepts h a _ _ _ H1 H2 eq_refl) Hr)).
Defined.

(** The tenant document of the example has no tags of its own. *)
Lemma tenant_tags_merged_witness :
  exists r,
    read_tenant_config Acme.host (Acme.app "prod") = Ok r /\
    r !! "tags" = Some (VDict (tenant_tags (Acme.app "prod"))).
Proof.
  set (h := Acme.host). set (a := Acme.app "prod").
  set (r := the ∅ (read_tenant_config h a)).
  assert (Hr : read_tenant_config h a = Ok r) by evaluate.
  assert (H1 : read_config h (tenant_path h a) = Ok (VDict Acme.tenant_spec)) by evaluate.
  assert (H2 : get (dget Acme.tenant_spec "environments" (VDict ∅)) (environment a) (VDict ∅)
               = Ok (VDict Acme.prod_entry)) by evaluate.
  assert (H3 : Acme.prod_entry !! "tags" = None) by evaluate.
  exists r. split; [exact Hr|].
  refine (proj2 (tenant_tags_merged h a _ _ r _ H1 H2 eq_refl H3 Hr) _).
  intros t Ht. vm_compute in Ht. discriminate Ht.
Defined.

(** The deployment record of the example: the jar of commit [abc123] in
    the bucket of environment [prod]. *)
Lemma deployment_jar_default_witness :
  exists r,
    read_deployment_config Acme.host (Acme.app "prod") = Ok r /\
    r !! "feature_engineering_jar"
      = Some (VStr "s3://prod-bucket/artifacts/feature-engineering-assembly-abc123.jar").
Proof.
  set (h := Acme.host). set (a := Acme.app "prod").
  set (r := the ∅ (read_deployment_config h a)).
  assert (Hr : read_deployment_config h a = Ok r) by evaluate.
  destruct (deployment_jar_default h a r Hr)
    as (tc & spec & items & Htc & Hspec & Hitems & Hjar & _).
  assert (Hd : read_config h (py_str h (tenant a) ++ "/deployment.json")
               = Ok Acme.deployment_doc) by evaluate.
  rewrite Hd in Hspec. apply Ok_inj in Hspec as <-. injection Hitems as <-.
  assert (Ht : read_tenant_config h a = Ok (the ∅ (read_tenant_config h a))) by evaluate.
  rewrite Ht in Htc. apply Ok_inj in Htc as <-.
  exists r. split; [exact Hr|].
  rewrite (proj2 (Hjar ltac:(evaluate)) ltac:(evaluate)). evaluate.
Defined.

(** The model of the example: the sources in [acme/risk/churn_v1/model]. *)
Lemma model_source_hash_coherent_witness :
  exists r dir code,
    read_model_config Acme.host (Acme.app "prod") = Ok r /\
    r !! "model_source_dir" = Some (VStr dir) /\
    model_code_hash Acme.host dir = Ok code /\
    r !! "model_code_sha" = Some (VStr code).
Proof.
  set (r := the ∅ (read_model_config Acme.host (Acme.app "prod"))).
  assert (Hr : read_model_config Acme.host (Acme.app "prod") = Ok r) by evaluate.
  destruct (model_source_hash_coherent _ _ r Hr)
    as (spec & dir & code & _ & _ & Hd & Hh & Hc & _).
  exists r, dir, code. auto.
Defined.

(** The model of the example declares the binary [model.bin]. *)
Lemma model_binary_hash_cases_witness :
  exists r,
    read_model_config Acme.host (Acme.app "prod") = Ok r /\
    r !! "model_binary" = Some (VStr "model.bin") /\
    exists content, r !! "model_binary_sha" = Some (VStr (Sha1.hexdigest content)).
Proof.
  set (h := Acme.host). set (a := Acme.app "prod").
  set (r := the ∅ (read_model_config h a)).
  assert (Hr : read_model_config h a = Ok r) by evaluate.
  destruct (proj1 (model_binary_hash_cases h a) r Hr)
    as (spec & dir & Hread & Hmb & Hdir & _ & Hdecl).
  assert (Hs : read_config h (model_base_dir h a ++ "/model.json") = Ok Acme.model_doc)
    by evaluate.
  rewrite Hs in Hread. apply Ok_inj in Hread. injection Hread as <-.
  destruct (Hdecl ltac:(evaluate)) as (content & _ & Hsha).
  exists r. split; [exact Hr|]. split; [|eauto].
  rewrite Hmb. evaluate.
Defined.

(** The subdirectory [lib] of the example is empty. *)
Lemma model_code_hash_edges_witness :
  files Acme.host "acme/risk/churn_v1/model/lib" = Some (Dir []) /\
  model_code_hash Acme.host "acme/risk/churn_v1/model/lib"
    = Ok "da39a3ee5e6b4b0d3255bfef95601890afd80709" /\
  model_code_hash Acme.host "acme/tenant.json" = Raise OSError.
Proof.
  assert (Hd : files Acme.host "acme/risk/churn_v1/model/lib" = Some (Dir [])) by evaluate.
  assert (Hf : files Acme.host "acme/tenant.json" = Some (File Acme.tenant_json)) by evaluate.
  split; [exact Hd|]. split.
  - refine (proj1 (model_code_hash_edges Acme.host _) [] Hd _). intros fn [].
  - exact (proj1 (proj2 (model_code_hash_edges Acme.host _)) _ Hf).
Defined.

(** The pipeline [train] of the example. *)
Lemma pipeline_names_witness :
  exists r,
    read_pipeline_config Acme.host (Acme.app "prod") = Ok r /\
    r !! "pipeline_name" = Some (VStr "acme-risk-churn-v1-train-prod") /\
    r !! "rule_name" = r !! "pipeline_name" /\
    r !! "pipeline_module_name" = Some (VStr "acme.risk.churn_v1.train").
Proof.
  set (r := the ∅ (read_pipeline_config Acme.host (Acme.app "prod"))).
  assert (Hr : read_pipeline_config Acme.host (Acme.app "prod") = Ok r) by evaluate.
  destruct (pipeline_names _ _ r Hr) as (Hn & _ & Hrule & _ & Hmod & _).
  exists r. split; [exact Hr|]. rewrite Hrule, Hn, Hmod. repeat apply conj; evaluate.
Defined.

(** The schedule of the pipeline [train] is a string. *)
Lemma pipeline_schedule_cases_witness :
  exists r,
    read_pipeline_config Acme.host (Acme.app "prod") = Ok r /\
    r !! "pipeline_schedule" = Some (VStr "rate(1 day)").
Proof.
  set (h := Acme.host). set (a := Acme.app "prod").
  set (r := the ∅ (read_pipeline_config h a)).
  assert (Hr : read_pipeline_config h a = Ok r) by evaluate.
  exists r. split; [exact Hr|].
  refine (proj1 (proj2 (pipeline_schedule_cases h a r
            {[ "pipeline_schedule" := VDict {[ "train" := VStr "rate(1 day)" ]} ]}
            {[ "train" := VStr "rate(1 day)" ]} "train" _ _ _ Hr))
            (VStr "rate(1 day)") _ _); evaluate.
Defined.

(** The model and the pipeline of the example. *)
Lemma model_pipeline_same_s3_path_witness :
  exists rm rp,
    read_model_config Acme.host (Acme.app "prod") = Ok rm /\
    read_pipeline_config Acme.host (Acme.app "prod") = Ok rp /\
    rm !! "base_s3_path" = rp !! "base_s3_path".
Proof.
  set (rm := the ∅ (read_model_config Acme.host (Acme.app "prod"))).
  set (rp := the ∅ (read_pipeline_config Acme.host (Acme.app "prod"))).
  assert (Hm : read_model_config Acme.host (Acme.app "prod") = Ok rm) by evaluate.
  assert (Hp : read_pipeline_config Acme.host (Acme.app "prod") = Ok rp) by evaluate.
  exists rm, rp. split; [exact Hm|]. split; [exact Hp|].
  exact (proj1 (model_pipeline_same_s3_path _ _ rm rp Hm Hp)).
Defined.
